(** * AI provider orchestration layer: a shallow embedding

    The development follows three source files:
    - [src/utils/ai-providers/bedrock-provider.ts]  (module [Bedrock]),
    - [src/utils/ai-providers/provider-manager.ts]  (module [Manager]),
    - [src/utils/aurora-ai-schema.sql]              (module [Sql]),
    on top of a small model of the JavaScript values the code handles
    (module [Js]).  Definitions come first, the theorems about them follow. *)

From Stdlib Require Import ZArith QArith Ascii String Bool Lia.
From stdpp Require Import gmap strings list fin_maps.

Local Open Scope string_scope.

(* ===================================================================== *)
(** ** JavaScript values, truthiness and property access                  *)
(* ===================================================================== *)

Module Js.

(** Strings are sequences of 8-bit code units (ASCII / Latin-1 text); numbers
    are rationals ([NaN] and the infinities cannot come out of [JSON.parse]
    and are not represented).  Objects are finite maps from property names
    to values: property order is not observable by the code modelled here. *)
#[warnings="-register-all"]
Inductive JsValue : Type :=
  | JUndefined
  | JNull
  | JBool (b : bool)
  | JNum (q : Q)
  | JStr (s : string)
  | JArr (elems : list JsValue)
  | JObj (props : gmap string JsValue).

Inductive JsError : Type :=
  | TypeError (message : string)
  | Error (message : string).

Definition errorMessage (e : JsError) : string :=
  match e with TypeError m => m | Error m => m end.

(** The outcome of an expression or call that may throw. *)
Inductive Result (A : Type) : Type :=
  | Ok (a : A)
  | Throw (e : JsError).
Arguments Ok {A} a.
Arguments Throw {A} e.

#[export] Instance result_ret : MRet Result := fun A a => Ok a.

#[export] Instance result_bind : MBind Result := fun A B k r =>
  match r with
  | Ok a => k a
  | Throw e => Throw e
  end.

(** [ToBoolean]. *)
Definition isTruthy (v : JsValue) : bool :=
  match v with
  | JUndefined | JNull => false
  | JBool b => b
  | JNum q => negb (Qnum q =? 0)%Z
  | JStr s => negb (String.eqb s "")
  | JArr _ | JObj _ => true
  end.

(** [a || b] on already evaluated operands. *)
Definition jsOr (a b : JsValue) : JsValue := if isTruthy a then a else b.

Definition digit (c : ascii) : option nat :=
  let n := nat_of_ascii c in
  if ((48 <=? n) && (n <=? 57))%nat then Some (n - 48)%nat else None.

Fixpoint digits (s : string) (acc : nat) : option nat :=
  match s with
  | EmptyString => Some acc
  | String c t =>
      match digit c with
      | Some d => digits t (10 * acc + d)%nat
      | None => None
      end
  end.

(** A property name that is a canonical array index. *)
Definition arrayIndex (k : string) : option nat :=
  match k with
  | EmptyString => None
  | String "0"%char EmptyString => Some 0%nat
  | String "0"%char _ => None
  | _ => digits k 0
  end.

Definition numOfNat (n : nat) : JsValue := JNum (inject_Z (Z.of_nat n)).

Fixpoint charAt (s : string) (i : nat) : JsValue :=
  match s, i with
  | EmptyString, _ => JUndefined
  | String c _, O => JStr (String c EmptyString)
  | String _ t, S j => charAt t j
  end.

(** [v.k] and [v[k]]: own properties of objects, elements and [length] of
    arrays and strings; reading a property of [null] or [undefined] throws.
    Inherited (prototype) properties are not modelled: the code reads none. *)
Definition getProp (v : JsValue) (k : string) : Result JsValue :=
  match v with
  | JUndefined =>
      Throw (TypeError ("Cannot read properties of undefined (reading '" ++ k ++ "')"))
  | JNull =>
      Throw (TypeError ("Cannot read properties of null (reading '" ++ k ++ "')"))
  | JBool _ | JNum _ => Ok JUndefined
  | JStr s =>
      if String.eqb k "length" then Ok (numOfNat (String.length s))
      else match arrayIndex k with
           | Some i => Ok (charAt s i)
           | None => Ok JUndefined
           end
  | JArr l =>
      if String.eqb k "length" then Ok (numOfNat (List.length l))
      else match arrayIndex k with
           | Some i => Ok (default JUndefined (l !! i))
           | None => Ok JUndefined
           end
  | JObj m => Ok (default JUndefined (m !! k))
  end.

(** [v?.k] and [v?.[k]]. *)
Definition optProp (v : JsValue) (k : string) : Result JsValue :=
  match v with
  | JUndefined | JNull => Ok JUndefined
  | _ => getProp v k
  end.

(** ASCII letters only, as the model identifiers of the code are. *)
Definition lowerChar (c : ascii) : ascii :=
  let n := nat_of_ascii c in
  if ((65 <=? n) && (n <=? 90))%nat then ascii_of_nat (n + 32) else c.

Fixpoint toLowerCase (s : string) : string :=
  match s with
  | EmptyString => EmptyString
  | String c t => String (lowerChar c) (toLowerCase t)
  end.

(** [s.includes(sub)]. *)
Fixpoint includes (s sub : string) : bool :=
  String.prefix sub s
  || match s with
     | EmptyString => false
     | String _ t => includes t sub
     end.

Definition nl : string := String (ascii_of_nat 10) EmptyString.

End Js.

Import Js.

(* ===================================================================== *)
(** ** bedrock-provider.ts                                                *)
(* ===================================================================== *)

Module Bedrock.

Record BedrockConfig : Type := mkConfig {
  region : string;
  accessKeyId : option string;
  secretAccessKey : option string;
  sessionToken : option string;
  modelId : string;
  maxTokens : Q;
  temperature : Q;
  topP : option Q;
  stopSequences : option (list string)
}.

Record BedrockRequest : Type := mkRequest {
  req_prompt : string;
  req_modelId : string;
  req_maxTokens : Q;
  req_temperature : Q;
  req_topP : option Q;
  req_stopSequences : option (list string);
  req_anthropicVersion : option string
}.

(** The strings [getModelFamily] returns. *)
Inductive ModelFamily : Type :=
  | FamClaude | FamLlama | FamTitan | FamAi21 | FamCohere | FamGeneric.

Definition familyName (f : ModelFamily) : string :=
  match f with
  | FamClaude => "claude"
  | FamLlama => "llama"
  | FamTitan => "titan"
  | FamAi21 => "ai21"
  | FamCohere => "cohere"
  | FamGeneric => "generic"
  end.

Definition getModelFamily (config : BedrockConfig) : ModelFamily :=
  let modelId := toLowerCase (modelId config) in
  if includes modelId "claude" then FamClaude
  else if includes modelId "llama" then FamLlama
  else if includes modelId "titan" then FamTitan
  else if includes modelId "jurassic" then FamAi21
  else if includes modelId "cohere" then FamCohere
  else FamGeneric.

(** [this.config.topP || 0.9]: a number is falsy when it is zero. *)
Definition topPOrDefault (config : BedrockConfig) : Q :=
  match topP config with
  | Some q => if (Qnum q =? 0)%Z then (9 # 10)%Q else q
  | None => (9 # 10)%Q
  end.

Definition buildClaudeRequest (config : BedrockConfig) (prompt : string) : BedrockRequest :=
  {| req_prompt := nl ++ nl ++ "Human: " ++ prompt ++ nl ++ nl ++ "Assistant:";
     req_modelId := modelId config;
     req_maxTokens := maxTokens config;
     req_temperature := temperature config;
     req_topP := Some (topPOrDefault config);
     req_stopSequences :=
       Some (match stopSequences config with
             | Some l => l
             | None => [nl ++ nl ++ "Human:"]
             end);
     req_anthropicVersion := Some "bedrock-2023-05-31" |}.

Definition buildLlamaRequest (config : BedrockConfig) (prompt : string) : BedrockRequest :=
  {| req_prompt := "<s>[INST] " ++ prompt ++ " [/INST]";
     req_modelId := modelId config;
     req_maxTokens := maxTokens config;
     req_temperature := temperature config;
     req_topP := Some (topPOrDefault config);
     req_stopSequences := None;
     req_anthropicVersion := None |}.

Definition buildTitanRequest (config : BedrockConfig) (prompt : string) : BedrockRequest :=
  {| req_prompt := prompt;
     req_modelId := modelId config;
     req_maxTokens := maxTokens config;
     req_temperature := temperature config;
     req_topP := Some (topPOrDefault config);
     req_stopSequences :=
       Some (match stopSequences config with Some l => l | None => [] end);
     req_anthropicVersion := None |}.

Definition buildGenericRequest (config : BedrockConfig) (prompt : string) : BedrockRequest :=
  {| req_prompt := prompt;
     req_modelId := modelId config;
     req_maxTokens := maxTokens config;
     req_temperature := temperature config;
     req_topP := Some (topPOrDefault config);
     req_stopSequences := None;
     req_anthropicVersion := None |}.

(** The [context] argument is accepted and ignored by every builder. *)
Definition buildRequest (config : BedrockConfig) (prompt : string) : BedrockRequest :=
  match getModelFamily config with
  | FamClaude => buildClaudeRequest config prompt
  | FamLlama => buildLlamaRequest config prompt
  | FamTitan => buildTitanRequest config prompt
  | _ => buildGenericRequest config prompt
  end.

Definition endpointOf (config : BedrockConfig) : string :=
  "https://bedrock-runtime." ++ region config ++ ".amazonaws.com".

(** [parseResponse]: the object literal built from the wire response
    ([response : any], whatever [response.json()] gave).  [now] is the
    value of [new Date().toISOString()]. *)
Definition parseResponse (config : BedrockConfig) (now : string) (response : JsValue)
  : Result JsValue :=
  match getModelFamily config with
  | FamClaude =>
      completion ← getProp response "completion";
      stop_reason ← getProp response "stop_reason";
      usage ← getProp response "usage";
      Ok (JObj (<["completion" := completion]>
               (<["stop_reason" := stop_reason]>
               (<["usage" := usage]>
               (<["model" := JStr (modelId config)]>
               (<["timestamp" := JStr now]> ∅))))))
  | FamLlama =>
      generation ← getProp response "generation";
      stop_reason ← getProp response "stop_reason";
      Ok (JObj (<["completion" := generation]>
               (<["stop_reason" := jsOr stop_reason (JStr "end_turn")]>
               (<["model" := JStr (modelId config)]>
               (<["timestamp" := JStr now]> ∅)))))
  | FamTitan =>
      results ← getProp response "results";
      first ← optProp results "0";
      outputText ← optProp first "outputText";
      results' ← getProp response "results";
      first' ← optProp results' "0";
      completionReason ← optProp first' "completionReason";
      Ok (JObj (<["completion" := jsOr outputText (JStr "")]>
               (<["stop_reason" := jsOr completionReason (JStr "finished")]>
               (<["model" := JStr (modelId config)]>
               (<["timestamp" := JStr now]> ∅)))))
  | _ =>
      completion ← getProp response "completion";
      text ← (if isTruthy completion then Ok JUndefined else getProp response "text");
      stop_reason ← getProp response "stop_reason";
      Ok (JObj (<["completion" := jsOr (jsOr completion text) (JStr "")]>
               (<["stop_reason" := jsOr stop_reason (JStr "finished")]>
               (<["model" := JStr (modelId config)]>
               (<["timestamp" := JStr now]> ∅)))))
  end.

End Bedrock.

(** The rest of [BedrockProvider]: the transport and the public call. *)
Module BedrockCall.
Import Bedrock.

(** What [callBedrock] sees of the world: the resolution of the [fetch] of
    one request.  [Throw] stands for a rejected [fetch], a body that is not
    JSON, and a status that is not ok (the error [callBedrock] then throws);
    [Ok body] is [response.json()] of an ok response. *)
Definition Transport : Type :=
  string -> list (string * string) -> BedrockRequest -> Result JsValue.

Definition nonEmpty (o : option string) : bool :=
  match o with
  | Some s => negb (String.eqb s "")
  | None => false
  end.

(** [generateAWSSignature] is a placeholder returning a constant. *)
Definition generateAWSSignature (request : BedrockRequest) : string :=
  "AWS4-HMAC-SHA256 Credential=...".

Definition buildAuthHeaders (config : BedrockConfig) (request : BedrockRequest)
  : list (string * string) :=
  ([("Content-Type", "application/json"); ("Accept", "application/json")]
   ++ (if nonEmpty (accessKeyId config) && nonEmpty (secretAccessKey config)
       then [("Authorization", generateAWSSignature request)]
       else []))%list.

(** [this.endpoint] is the string the constructor and [updateConfig] build
    from the region, [endpointOf] here. *)
Definition callBedrock (net : Transport) (config : BedrockConfig) (request : BedrockRequest)
  : Result JsValue :=
  net (endpointOf config ++ "/model/" ++ req_modelId request ++ "/invoke")
      (buildAuthHeaders config request) request.

Definition generateResponse (net : Transport) (config : BedrockConfig) (now : string)
    (prompt : string) : Result JsValue :=
  match (response ← callBedrock net config (buildRequest config prompt);
         parseResponse config now response) with
  | Ok r => Ok r
  | Throw e => Throw (Error ("Failed to generate response: " ++ errorMessage e))
  end.

(** [completion.length > 0].  The length of a string or of an array is a
    number and is compared as such; [undefined] becomes NaN and compares
    false, [null] becomes 0, [true] and [false] become 1 and 0.  A length
    that is a string, an array or an object (an object's own [length]
    property can be one) is first converted to a number by the language:
    that conversion is not modelled.  Its outcome is the parameter
    [converted]: whether the number it gives is greater than 0, false also
    when the conversion throws, which [testConnection] catches. *)
Definition isPositive (converted : JsValue -> bool) (v : JsValue) : bool :=
  match v with
  | JNum q => (0 <? Qnum q)%Z
  | JBool b => b
  | JUndefined | JNull => false
  | JStr _ | JArr _ | JObj _ => converted v
  end.

Definition testConnection (net : Transport) (converted : JsValue -> bool)
    (config : BedrockConfig) (now : string) : bool :=
  match (testResponse ← generateResponse net config now "Test connection";
         completion ← getProp testResponse "completion";
         getProp completion "length") with
  | Ok len => isPositive converted len
  | Throw _ => false
  end.

End BedrockCall.

(* ===================================================================== *)
(** ** provider-manager.ts                                                *)
(* ===================================================================== *)

Module Manager.

Inductive AIProviderType : Type := bedrock | openai | claude | azure | local.

#[export] Instance AIProviderType_eq_dec : EqDecision AIProviderType.
Proof. solve_decision. Defined.

Definition providerIndex (p : AIProviderType) : nat :=
  match p with bedrock => 0 | openai => 1 | claude => 2 | azure => 3 | local => 4 end.

Definition providerOfIndex (n : nat) : option AIProviderType :=
  match n with
  | 0 => Some bedrock | 1 => Some openai | 2 => Some claude
  | 3 => Some azure | 4 => Some local | _ => None
  end.

#[export] Instance AIProviderType_countable : Countable AIProviderType.
Proof.
  apply (inj_countable providerIndex providerOfIndex).
  intros []; reflexivity.
Defined.

Definition providerName (p : AIProviderType) : string :=
  match p with
  | bedrock => "bedrock" | openai => "openai" | claude => "claude"
  | azure => "azure" | local => "local"
  end.

Record AIResponse : Type := mkResponse {
  content : JsValue;
  usage : JsValue;
  model : JsValue;
  provider : AIProviderType;
  timestamp : JsValue;
  stopReason : JsValue;          (* metadata.stopReason *)
  originalResponse : JsValue     (* metadata.originalResponse *)
}.

(** A registered provider: the [BedrockProvider] object, or one of the
    placeholder objects of [setupOpenAIProvider] and its siblings, whose
    [generateResponse] returns a fixed completion. *)
Inductive ProviderInstance : Type :=
  | BedrockInstance (config : Bedrock.BedrockConfig)
  | PlaceholderInstance (completion : string) (modelName : string).

Record State : Type := mkState {
  currentProvider : AIProviderType;
  providers : gmap AIProviderType ProviderInstance;
  configs : gmap AIProviderType (gmap string JsValue);
  fallbackProviders : list AIProviderType
}.

(** What the code takes from outside: the network and the clock, both
    read at a time that is the number of provider attempts made so far,
    and the conversion to a number that [BedrockCall.isPositive] leaves to
    the language. *)
Record Env : Type := mkEnv {
  network : nat -> BedrockCall.Transport;
  clock : nat -> string;
  converted : JsValue -> bool
}.

Definition setFallbackProviders (s : State) (l : list AIProviderType) : State :=
  {| currentProvider := currentProvider s;
     providers := providers s;
     configs := configs s;
     fallbackProviders := List.filter (fun p => bool_decide (is_Some (providers s !! p))) l |}.

Definition standardizeResponse (now : string) (response : JsValue) (p : AIProviderType)
  : Result AIResponse :=
  completion ← getProp response "completion";
  content' ← (if isTruthy completion then Ok completion
              else c ← getProp response "content";
                   if isTruthy c then Ok c
                   else t ← getProp response "text"; Ok (jsOr t (JStr "")));
  usage' ← getProp response "usage";
  model' ← getProp response "model";
  timestamp' ← getProp response "timestamp";
  stop_reason ← getProp response "stop_reason";
  Ok {| content := content';
        usage := usage';
        model := jsOr model' (JStr "unknown");
        provider := p;
        timestamp := jsOr timestamp' (JStr now);
        stopReason := stop_reason;
        originalResponse := response |}.

(** [provider.generateResponse(prompt, context)]. *)
Definition invoke (E : Env) (t : nat) (inst : ProviderInstance) (prompt : string)
  : Result JsValue :=
  match inst with
  | BedrockInstance config =>
      BedrockCall.generateResponse (network E t) config (clock E t) prompt
  | PlaceholderInstance completion modelName =>
      Ok (JObj (<["completion" := JStr completion]>
               (<["model" := JStr modelName]>
               (<["timestamp" := JStr (clock E t)]> ∅))))
  end.

(** [callProvider(providerType, 'generateResponse', prompt, context)]: every
    registered provider has the method. *)
Definition callProvider (E : Env) (s : State) (t : nat) (p : AIProviderType)
    (prompt : string) : Result JsValue :=
  match providers s !! p with
  | None =>
      Throw (Error ("Method generateResponse not available for provider " ++ providerName p))
  | Some inst => invoke E t inst prompt
  end.

(** The [try] block of [generateResponse]: one attempt on one provider. *)
Definition attempt (E : Env) (s : State) (t : nat) (p : AIProviderType)
    (prompt : string) : Result AIResponse :=
  match providers s !! p with
  | None => Throw (Error ("Provider " ++ providerName p ++ " not initialized"))
  | Some _ =>
      response ← callProvider E s t p prompt;
      standardizeResponse (clock E t) response p
  end.

(** One line of the attempt log: the provider tried and the error it
    failed with, if it failed. *)
Record Attempt : Type := mkAttempt {
  att_provider : AIProviderType;
  att_error : option JsError
}.

Inductive Outcome : Type :=
  | Returned (r : AIResponse)
  | Thrown (e : JsError)
  | Unfinished.                  (* the call depth allowed was used up *)

Definition allFailed : JsError := Error "All providers failed, including fallbacks".

Section Failover.
Variable E : Env.
Variable s : State.
Variable prompt : string.

(** The [for] loop of [tryFallbackProviders], over the call it makes for
    each entry ([generate], which is [generateResponse] itself). *)
Fixpoint tryFallbackLoop
    (generate : AIProviderType -> list Attempt -> list Attempt * Outcome)
    (chain : list AIProviderType) (log : list Attempt) : list Attempt * Outcome :=
  match chain with
  | [] => (log, Thrown allFailed)
  | fallbackProvider :: rest =>
      match generate fallbackProvider log with
      | (log', Returned response) => (log', Returned response)
      | (log', Thrown _) => tryFallbackLoop generate rest log'
      | (log', Unfinished) => (log', Unfinished)
      end
  end.

(** [generateResponse(prompt, context, { useProvider })] with its
    attempts logged; [depth] bounds the nesting of calls. *)
Fixpoint generateResponseAt (depth : nat) (p : AIProviderType) (log : list Attempt)
  : list Attempt * Outcome :=
  match depth with
  | O => (log, Unfinished)
  | S depth' =>
      match attempt E s (List.length log) p prompt with
      | Ok response => ((log ++ [mkAttempt p None])%list, Returned response)
      | Throw error =>
          let log' := (log ++ [mkAttempt p (Some error)])%list in
          match fallbackProviders s with
          | [] => (log', Thrown error)
          | _ :: _ => tryFallbackLoop (generateResponseAt depth') (fallbackProviders s) log'
          end
      end
  end.

Definition tryFallbackProviders (depth : nat) (log : list Attempt)
  : list Attempt * Outcome :=
  tryFallbackLoop (generateResponseAt depth) (fallbackProviders s) log.

Definition generateResponse (depth : nat) (useProvider : option AIProviderType)
  : list Attempt * Outcome :=
  generateResponseAt depth (default (currentProvider s) useProvider) [].

End Failover.

Definition masked : JsValue := JStr "***masked***".

Definition field (config : option (gmap string JsValue)) (k : string) : JsValue :=
  match config with
  | Some c => default JUndefined (c !! k)
  | None => JUndefined
  end.

(** [{ ...config, apiKey: ..., secretAccessKey: ... }]. *)
Definition maskConfig (config : option (gmap string JsValue)) : gmap string JsValue :=
  <["secretAccessKey" := if isTruthy (field config "secretAccessKey") then masked else JUndefined]>
  (<["apiKey" := if isTruthy (field config "apiKey") then masked else JUndefined]>
  (default ∅ config)).

Record ProviderStatus : Type := mkStatus {
  healthy : bool;
  st_model : JsValue;
  lastTested : string;
  st_config : gmap string JsValue
}.

(** [provider.testConnection?.() || false]; neither kind of provider throws. *)
Definition testConnection (E : Env) (t : nat) (inst : ProviderInstance) : bool :=
  match inst with
  | BedrockInstance config =>
      BedrockCall.testConnection (network E t) (converted E) config (clock E t)
  | PlaceholderInstance _ _ => true
  end.

Definition statusOf (E : Env) (s : State) (t : nat) (p : AIProviderType)
    (inst : ProviderInstance) : ProviderStatus :=
  let config := configs s !! p in
  {| healthy := testConnection E t inst;
     st_model := jsOr (field config "modelId") (JStr "unknown");
     lastTested := clock E t;
     st_config := maskConfig config |}.

Definition getProviderStatus (E : Env) (s : State) (t : nat)
  : gmap AIProviderType ProviderStatus :=
  map_imap (fun p inst => Some (statusOf E s t p inst)) (providers s).

End Manager.

(* ===================================================================== *)
(** ** aurora-ai-schema.sql and its caller in aurora-ai-service.ts        *)
(* ===================================================================== *)

Module Sql.

Local Open Scope Z_scope.

Inductive SqlError : Type :=
  | CaseNotFound                (* SQLSTATE 20000, case_not_found *)
  | NumericFieldOverflow        (* SQLSTATE 22003 on a DECIMAL(10,6) value *)
  | IntegerOutOfRange           (* SQLSTATE 22003 on an INTEGER value *)
  | StringDataRightTruncation   (* SQLSTATE 22001 on a VARCHAR(n) column *)
  | InvalidTextRepresentation.  (* SQLSTATE 22P02 on the text of a UUID *)

Inductive SqlResult (A : Type) : Type :=
  | Done (a : A)
  | Raise (e : SqlError).
Arguments Done {A} a.
Arguments Raise {A} e.

#[export] Instance sql_ret : MRet SqlResult := fun A a => Done a.

#[export] Instance sql_bind : MBind SqlResult := fun A B k r =>
  match r with
  | Done a => k a
  | Raise e => Raise e
  end.

(** An INTEGER is a 32-bit signed integer; results outside raise. *)
Definition int4 (z : Z) : SqlResult Z :=
  if (-2147483648 <=? z) && (z <=? 2147483647) then Done z else Raise IntegerOutOfRange.

(** A value that may be NULL: NULL passes every conversion. *)
Definition nullable {A B} (convert : A -> SqlResult B) (o : option A) : SqlResult (option B) :=
  match o with
  | Some a => b ← convert a; Done (Some b)
  | None => Done None
  end.

(** The text of a UUID, as the type's input reads it: sixteen pairs of
    hexadecimal digits, a hyphen allowed after every second pair but the
    last, the whole in braces or not, and nothing before or after.  The
    value is held as the text the type prints: lower case, hyphens after
    the pairs 4, 6, 8 and 10. *)
Definition isxdigit (c : ascii) : bool :=
  let n := nat_of_ascii c in
  ((48 <=? n) && (n <=? 57) || (65 <=? n) && (n <=? 70) || (97 <=? n) && (n <=? 102))%nat.

Definition lowerDigit (c : ascii) : ascii :=
  let n := nat_of_ascii c in
  if ((65 <=? n) && (n <=? 70))%nat then ascii_of_nat (n + 32) else c.

Definition hyphenBefore (i : nat) : bool :=
  (Nat.eqb i 4 || Nat.eqb i 6 || Nat.eqb i 8 || Nat.eqb i 10)%nat.

Fixpoint uuidPairs (count i : nat) (src : string) : option (string * string) :=
  match count with
  | O => Some ("", src)
  | S count' =>
      match src with
      | String a (String b rest) =>
          if isxdigit a && isxdigit b then
            let rest' :=
              match rest with
              | String "-"%char tail => if Nat.odd i && (i <? 15)%nat then tail else rest
              | _ => rest
              end in
            match uuidPairs count' (S i) rest' with
            | Some (digits, tail) =>
                Some ((if hyphenBefore i then "-" else "")
                      ++ String (lowerDigit a) (String (lowerDigit b) digits), tail)
            | None => None
            end
          else None
      | _ => None
      end
  end.

Definition uuid_in (text : string) : SqlResult string :=
  let '(braces, src) :=
    match text with
    | String "{"%char rest => (true, rest)
    | _ => (false, text)
    end in
  match uuidPairs 16 0 src with
  | Some (value, tail) =>
      if String.eqb tail (if braces then "}" else "") then Done value
      else Raise InvalidTextRepresentation
  | None => Raise InvalidTextRepresentation
  end.

(** The assignment of a string to a VARCHAR(n) column: a string of more
    than [n] characters is an error, unless all that exceeds [n] is
    spaces, which are then cut off. *)
Fixpoint excess (n : nat) (s : string) : string :=
  match n, s with
  | S n', String _ t => excess n' t
  | _, _ => s
  end.

Fixpoint clip (n : nat) (s : string) : string :=
  match n, s with
  | S n', String c t => String c (clip n' t)
  | _, _ => ""
  end.

Fixpoint spaces (s : string) : bool :=
  match s with
  | "" => true
  | String c t => Ascii.eqb c " " && spaces t
  end.

Definition fits (n : nat) (s : string) : bool := spaces (excess n s).

Definition varchar (n : nat) (s : string) : SqlResult string :=
  if fits n s then Done (clip n s) else Raise StringDataRightTruncation.

(** A DECIMAL(10,6) value, held as its number of millionths.  [toDecimal]
    is the assignment of an exact numeric, given in units of 10^-8, to such
    a variable: rounding to six places, half away from zero, and an error
    when more than four digits remain before the point. *)
Definition roundHundredth (v : Z) : Z := Z.sgn v * ((Z.abs v + 50) / 100).

Definition toDecimal (v : Z) : SqlResult Z :=
  let m := roundHundredth v in
  if Z.abs m <? 10000000000 then Done m else Raise NumericFieldOverflow.

(** [model_name LIKE '%pat%'] for a pattern without wildcards of its own. *)
Definition like (model_name pat : string) : bool := includes model_name pat.

(** [calculate_ai_usage_cost].  Prices are the literals of the source in
    units of 10^-8 dollars per token.  Both CASE statements are PL/pgSQL
    statements without ELSE: when no WHEN branch matches, the statement
    raises case_not_found and the function does not reach RETURN. *)
Definition calculate_ai_usage_cost (provider_name model_name : string)
    (prompt_tokens_count completion_tokens_count : Z) : SqlResult Z :=
  let cost := 0 in
  cost' ←
    (if String.eqb provider_name "bedrock" then
       if like model_name "claude-3-sonnet" then
         toDecimal (prompt_tokens_count * 300 + completion_tokens_count * 1500)
       else if like model_name "claude-3-haiku" then
         toDecimal (prompt_tokens_count * 25 + completion_tokens_count * 125)
       else if like model_name "titan" then
         toDecimal (prompt_tokens_count * 50 + completion_tokens_count * 150)
       else Raise CaseNotFound
     else if String.eqb provider_name "openai" then
       if String.eqb model_name "gpt-4" then
         toDecimal (prompt_tokens_count * 3000 + completion_tokens_count * 6000)
       else if String.eqb model_name "gpt-3.5-turbo" then
         toDecimal (prompt_tokens_count * 100 + completion_tokens_count * 200)
       else Raise CaseNotFound
     else Raise CaseNotFound);
  Done cost'.

(** A row of [ai_usage_tracking]; the two UUID columns hold the text
    their values print as. *)
Record UsageRow : Type := mkRow {
  id : string;
  user_id : string;
  project_id : option string;
  ai_provider : string;
  ai_model : string;
  operation_type : string;
  prompt_tokens : Z;
  completion_tokens : Z;
  total_tokens : Z;
  cost_estimate : Z;
  processing_time : option Z;
  success : bool;
  error_message : option string
}.

(** [track_ai_usage] on the table [ai_usage_tracking], called with the
    arguments as [trackUsage] sends them; [fresh] is the identifier
    [gen_random_uuid()] gives the new row.

    The arguments are converted to the types of the parameters first, in
    the order of the parameters: the two identifiers to UUID, the three
    numbers to INTEGER.  The lengths in VARCHAR(50) and VARCHAR(100) of a
    parameter set no limit: the strings reach the body whole, and
    [calculate_ai_usage_cost] sees them so.  The limits are those of the
    columns, applied when the INSERT builds the row, column after column:
    so the three strings come before the sum of the counts.  The foreign
    keys of the table, checked once the row is built, are not modelled. *)
Definition track_ai_usage (fresh : string) (table : list UsageRow)
    (user_uuid : string) (project_uuid : option string)
    (provider_name model_name operation : string)
    (prompt_tokens_count completion_tokens_count : Z)
    (processing_time_ms : option Z) (success_flag : bool) (error_msg : option string)
  : SqlResult (list UsageRow * string) :=
  user ← uuid_in user_uuid;
  project ← nullable uuid_in project_uuid;
  p ← int4 prompt_tokens_count;
  c ← int4 completion_tokens_count;
  time ← nullable int4 processing_time_ms;
  calculated_cost ← calculate_ai_usage_cost provider_name model_name p c;
  provider ← varchar 50 provider_name;
  model ← varchar 100 model_name;
  operation' ← varchar 50 operation;
  total ← int4 (p + c);
  let row :=
    {| id := fresh; user_id := user; project_id := project;
       ai_provider := provider; ai_model := model;
       operation_type := operation';
       prompt_tokens := p; completion_tokens := c; total_tokens := total;
       cost_estimate := calculated_cost; processing_time := time;
       success := success_flag; error_message := error_msg |} in
  Done ((table ++ [row])%list, fresh).




End Sql.

(* ===================================================================== *)
(** ** The [BedrockProvider] object and the objects it shares             *)
(* ===================================================================== *)

(** [getConfig] hands an object to the caller, who may write to it.  Here
    the configuration is an object on a heap, and its [stopSequences], an
    array, is a reference into the same heap, as in the running program. *)
Module BedrockObject.

Definition loc : Type := nat.

Record ConfigObject : Type := mkObject {
  o_region : string;
  o_accessKeyId : option string;
  o_secretAccessKey : option string;
  o_sessionToken : option string;
  o_modelId : string;
  o_maxTokens : Q;
  o_temperature : Q;
  o_topP : option Q;
  o_stopSequences : option loc
}.

Record Heap : Type := mkHeap {
  objects : gmap loc ConfigObject;
  arrays : gmap loc (list string)
}.

(** [this.config] and [this.endpoint]. *)
Record BedrockProvider : Type := mkProvider {
  config : loc;
  endpoint : string
}.

(** The configuration the methods of the provider read through a reference. *)
Definition readConfig (h : Heap) (l : loc) : option Bedrock.BedrockConfig :=
  o ← objects h !! l;
  stops ← match o_stopSequences o with
          | None => Some None
          | Some a => Some <$> arrays h !! a
          end;
  Some {| Bedrock.region := o_region o;
          Bedrock.accessKeyId := o_accessKeyId o;
          Bedrock.secretAccessKey := o_secretAccessKey o;
          Bedrock.sessionToken := o_sessionToken o;
          Bedrock.modelId := o_modelId o;
          Bedrock.maxTokens := o_maxTokens o;
          Bedrock.temperature := o_temperature o;
          Bedrock.topP := o_topP o;
          Bedrock.stopSequences := stops |}.

Definition buildRequest (h : Heap) (p : BedrockProvider) (prompt : string)
  : option Bedrock.BedrockRequest :=
  c ← readConfig h (config p); Some (Bedrock.buildRequest c prompt).

Definition getModelFamily (h : Heap) (p : BedrockProvider) : option Bedrock.ModelFamily :=
  Bedrock.getModelFamily <$> readConfig h (config p).

(** A location no object or array of the heap lives at. *)
Definition freshLoc (h : Heap) : loc := fresh (dom (objects h) ∪ dom (arrays h)).

(** [getConfig]: [{ ...this.config }], a new object with the same property
    values; a property holding a reference is copied as that reference. *)
Definition getConfig (h : Heap) (p : BedrockProvider) : option (Heap * loc) :=
  o ← objects h !! config p;
  let l := freshLoc h in
  Some ({| objects := <[l := o]> (objects h); arrays := arrays h |}, l).

(** What a caller can do with the object at [l] it was given: assign or
    delete one of its properties, or push onto the array its
    [stopSequences] property refers to. *)
Inductive Mutation : Type :=
  | SetRegion (v : string)
  | SetAccessKeyId (v : option string)
  | SetSecretAccessKey (v : option string)
  | SetSessionToken (v : option string)
  | SetModelId (v : string)
  | SetMaxTokens (v : Q)
  | SetTemperature (v : Q)
  | SetTopP (v : option Q)
  | SetStopSequences (v : option loc)
  | StopSequencesPush (v : string).

(** The writes to the properties of the object itself. *)
Definition ownProperty (m : Mutation) : bool :=
  match m with
  | StopSequencesPush _ => false
  | _ => true
  end.

Definition updateObject (m : Mutation) (o : ConfigObject) : ConfigObject :=
  match m with
  | SetRegion v => mkObject v (o_accessKeyId o) (o_secretAccessKey o) (o_sessionToken o)
      (o_modelId o) (o_maxTokens o) (o_temperature o) (o_topP o) (o_stopSequences o)
  | SetAccessKeyId v => mkObject (o_region o) v (o_secretAccessKey o) (o_sessionToken o)
      (o_modelId o) (o_maxTokens o) (o_temperature o) (o_topP o) (o_stopSequences o)
  | SetSecretAccessKey v => mkObject (o_region o) (o_accessKeyId o) v (o_sessionToken o)
      (o_modelId o) (o_maxTokens o) (o_temperature o) (o_topP o) (o_stopSequences o)
  | SetSessionToken v => mkObject (o_region o) (o_accessKeyId o) (o_secretAccessKey o) v
      (o_modelId o) (o_maxTokens o) (o_temperature o) (o_topP o) (o_stopSequences o)
  | SetModelId v => mkObject (o_region o) (o_accessKeyId o) (o_secretAccessKey o)
      (o_sessionToken o) v (o_maxTokens o) (o_temperature o) (o_topP o) (o_stopSequences o)
  | SetMaxTokens v => mkObject (o_region o) (o_accessKeyId o) (o_secretAccessKey o)
      (o_sessionToken o) (o_modelId o) v (o_temperature o) (o_topP o) (o_stopSequences o)
  | SetTemperature v => mkObject (o_region o) (o_accessKeyId o) (o_secretAccessKey o)
      (o_sessionToken o) (o_modelId o) (o_maxTokens o) v (o_topP o) (o_stopSequences o)
  | SetTopP v => mkObject (o_region o) (o_accessKeyId o) (o_secretAccessKey o)
      (o_sessionToken o) (o_modelId o) (o_maxTokens o) (o_temperature o) v (o_stopSequences o)
  | SetStopSequences v => mkObject (o_region o) (o_accessKeyId o) (o_secretAccessKey o)
      (o_sessionToken o) (o_modelId o) (o_maxTokens o) (o_temperature o) (o_topP o) v
  | StopSequencesPush _ => o
  end.

Definition updateArray (m : Mutation) (a : list string) : list string :=
  match m with
  | StopSequencesPush v => (a ++ [v])%list
  | _ => a
  end.

(** One mutation through the reference [l]. *)
Definition mutate (l : loc) (h : Heap) (m : Mutation) : Heap :=
  if ownProperty m then
    {| objects := alter (updateObject m) l (objects h); arrays := arrays h |}
  else
    match objects h !! l ≫= o_stopSequences with
    | Some a => {| objects := objects h; arrays := alter (updateArray m) a (arrays h) |}
    | None => h                  (* the caller's statement throws *)
    end.

Definition mutateAll (l : loc) (h : Heap) (ms : list Mutation) : Heap :=
  foldl (mutate l) h ms.

End BedrockObject.

(* ===================================================================== *)
(** ** The properties stated, in the words of the specification           *)
(* ===================================================================== *)

Module Spec.
Import Bedrock.

(** A classifier that runs a list of substring checks in the order given
    and answers with the family of the first that matches. *)
Fixpoint classifyWith (checks : list (string * ModelFamily)) (modelId : string)
  : ModelFamily :=
  match checks with
  | [] => FamGeneric
  | (tag, family) :: rest =>
      if includes modelId tag then family else classifyWith rest modelId
  end.

(** The checks of [getModelFamily], in the order of the source. *)
Definition sourceChecks : list (string * ModelFamily) :=
  [("claude", FamClaude); ("llama", FamLlama); ("titan", FamTitan);
   ("jurassic", FamAi21); ("cohere", FamCohere)].

(** The vendor tags a lower-cased model identifier contains. *)
Definition tagsIn (modelId : string) : list (string * ModelFamily) :=
  List.filter (fun c => includes modelId (fst c)) sourceChecks.

(** Normalization: [parseResponse] of the Bedrock provider followed by
    [standardizeResponse] of the manager, as [generateResponse] chains them. *)
Definition normalize (config : BedrockConfig) (now : string) (wire : JsValue)
  : Result Manager.AIResponse :=
  parsed ← parseResponse config now wire;
  Manager.standardizeResponse now parsed Manager.bedrock.

Definition isZero (v : JsValue) : bool :=
  match v with
  | JNum q => (Qnum q =? 0)%Z
  | _ => false
  end.

Definition count (usage : JsValue) (k : string) : JsValue :=
  match getProp usage k with
  | Ok v => v
  | Throw _ => JUndefined
  end.

(** A usage block whose three token counts are zero. *)
Definition zeroUsage (usage : JsValue) : Prop :=
  isZero (count usage "promptTokens") = true
  ∧ isZero (count usage "completionTokens") = true
  ∧ isZero (count usage "totalTokens") = true.

(** Where a family's wire response keeps its output text, and its finish
    reason: the reads [parseResponse] makes. *)
Definition textReads (family : ModelFamily) (wire : JsValue) : list (Result JsValue) :=
  match family with
  | FamClaude => [getProp wire "completion"]
  | FamLlama => [getProp wire "generation"]
  | FamTitan =>
      [results ← getProp wire "results"; first ← optProp results "0";
       optProp first "outputText"]
  | _ => [getProp wire "completion"; getProp wire "text"]
  end.

Definition finishRead (family : ModelFamily) (wire : JsValue) : Result JsValue :=
  match family with
  | FamTitan =>
      results ← getProp wire "results"; first ← optProp results "0";
      optProp first "completionReason"
  | _ => getProp wire "stop_reason"
  end.

Definition lacksText (family : ModelFamily) (wire : JsValue) : Prop :=
  Forall (fun r => r = Ok JUndefined) (textReads family wire).

Definition lacksFinishReason (family : ModelFamily) (wire : JsValue) : Prop :=
  finishRead family wire = Ok JUndefined.

(** The pairs [calculate_ai_usage_cost] has a price for. *)
Definition hasPrice (provider_name model_name : string) : bool :=
  (String.eqb provider_name "bedrock"
   && (Sql.like model_name "claude-3-sonnet" || Sql.like model_name "claude-3-haiku"
       || Sql.like model_name "titan"))
  || (String.eqb provider_name "openai"
      && (String.eqb model_name "gpt-4" || String.eqb model_name "gpt-3.5-turbo")).

(** Two configuration objects that differ at most in the values of
    [apiKey] and [secretAccessKey], each of the two set in both or the
    same in both. *)
Definition sameButSecret (k : string) (c1 c2 : gmap string JsValue) : Prop :=
  c1 !! k = c2 !! k
  ∨ (isTruthy (default JUndefined (c1 !! k)) = true
     ∧ isTruthy (default JUndefined (c2 !! k)) = true).

Definition secretsApart (c1 c2 : gmap string JsValue) : Prop :=
  (∀ k, k ≠ "apiKey" → k ≠ "secretAccessKey" → c1 !! k = c2 !! k)
  ∧ sameButSecret "apiKey" c1 c2
  ∧ sameButSecret "secretAccessKey" c1 c2.

(** Two Bedrock configurations, and two registered providers, that differ
    at most in the value of a secret access key set in both. *)
Definition configsApart (c1 c2 : BedrockConfig) : Prop :=
  region c1 = region c2
  ∧ accessKeyId c1 = accessKeyId c2
  ∧ sessionToken c1 = sessionToken c2
  ∧ modelId c1 = modelId c2
  ∧ maxTokens c1 = maxTokens c2
  ∧ temperature c1 = temperature c2
  ∧ topP c1 = topP c2
  ∧ stopSequences c1 = stopSequences c2
  ∧ (secretAccessKey c1 = secretAccessKey c2
     ∨ (BedrockCall.nonEmpty (secretAccessKey c1) = true
        ∧ BedrockCall.nonEmpty (secretAccessKey c2) = true)).

Definition instancesApart (i1 i2 : Manager.ProviderInstance) : Prop :=
  match i1, i2 with
  | Manager.BedrockInstance c1, Manager.BedrockInstance c2 => configsApart c1 c2
  | _, _ => i1 = i2
  end.

(** Two states of the manager that differ only in the values of secrets. *)
Definition statesApart (s1 s2 : Manager.State) : Prop :=
  Manager.currentProvider s1 = Manager.currentProvider s2
  ∧ Manager.fallbackProviders s1 = Manager.fallbackProviders s2
  ∧ (∀ p, option_Forall2 instancesApart
            (Manager.providers s1 !! p) (Manager.providers s2 !! p))
  ∧ (∀ p, option_Forall2 secretsApart
            (Manager.configs s1 !! p) (Manager.configs s2 !! p)).

End Spec.

(* ===================================================================== *)
(** ** bedrock-provider.ts: start-up, request bodies and prompts          *)
(* ===================================================================== *)

Module BedrockOps.
Import Bedrock.

(** [listAvailableModels]: the fixed list the source returns. *)
Definition listAvailableModels : list string :=
  ["anthropic.claude-3-sonnet-20240229-v1:0";
   "anthropic.claude-3-haiku-20240307-v1:0";
   "anthropic.claude-v2:1";
   "anthropic.claude-instant-v1";
   "meta.llama2-70b-chat-v1";
   "meta.llama2-13b-chat-v1";
   "amazon.titan-text-premier-v1:0";
   "amazon.titan-text-express-v1";
   "ai21.j2-ultra-v1";
   "ai21.j2-mid-v1";
   "cohere.command-text-v14";
   "cohere.command-light-text-v14"].

(** [supportedModels.includes(this.config.modelId)]. *)
Definition arrayIncludes (l : list string) (x : string) : bool :=
  existsb (String.eqb x) l.

Definition validateModel (config : BedrockConfig) : Result unit :=
  if arrayIncludes listAvailableModels (modelId config) then Ok tt
  else Throw (Error ("Model " ++ modelId config ++ " is not available in region "
                     ++ region config)).

(** [initialize]: the [catch] logs the error and throws it again. *)
Definition initialize (config : BedrockConfig) : Result unit :=
  if String.eqb (region config) "" then
    Throw (Error "AWS region is required for Bedrock integration")
  else if String.eqb (modelId config) "" then
    Throw (Error "Model ID is required for Bedrock integration")
  else validateModel config.

Definition optNum (o : option Q) : JsValue :=
  match o with Some q => JNum q | None => JUndefined end.

Definition optStr (o : option string) : JsValue :=
  match o with Some s => JStr s | None => JUndefined end.

Definition optStrings (o : option (list string)) : JsValue :=
  match o with Some l => JArr (JStr <$> l) | None => JUndefined end.

(** [formatRequestBody]: the object handed to [JSON.stringify]. *)
Definition formatRequestBody (config : BedrockConfig) (request : BedrockRequest) : JsValue :=
  match getModelFamily config with
  | FamClaude =>
      JObj (<["prompt" := JStr (req_prompt request)]>
           (<["max_tokens_to_sample" := JNum (req_maxTokens request)]>
           (<["temperature" := JNum (req_temperature request)]>
           (<["top_p" := optNum (req_topP request)]>
           (<["stop_sequences" := optStrings (req_stopSequences request)]>
           (<["anthropic_version" := optStr (req_anthropicVersion request)]> ∅))))))
  | FamLlama =>
      JObj (<["prompt" := JStr (req_prompt request)]>
           (<["max_gen_len" := JNum (req_maxTokens request)]>
           (<["temperature" := JNum (req_temperature request)]>
           (<["top_p" := optNum (req_topP request)]> ∅))))
  | FamTitan =>
      JObj (<["inputText" := JStr (req_prompt request)]>
           (<["textGenerationConfig" :=
                JObj (<["maxTokenCount" := JNum (req_maxTokens request)]>
                     (<["temperature" := JNum (req_temperature request)]>
                     (<["topP" := optNum (req_topP request)]>
                     (<["stopSequences" := optStrings (req_stopSequences request)]> ∅))))]>
            ∅))
  | _ =>
      JObj (<["prompt" := JStr (req_prompt request)]>
           (<["max_tokens" := JNum (req_maxTokens request)]>
           (<["temperature" := JNum (req_temperature request)]>
           (<["top_p" := optNum (req_topP request)]> ∅))))
  end.

(** [${framework}] in a template: an absent argument prints as "undefined". *)
Definition show (o : option string) : string :=
  match o with Some s => s | None => "undefined" end.

(** [framework || fallback]: absent and empty both give the fallback. *)
Definition orElse (o : option string) (fallback : string) : string :=
  match o with
  | Some s => if String.eqb s "" then fallback else s
  | None => fallback
  end.

Definition basePrompt : string :=
  "You are a compliance expert analyzing documents for regulatory adherence.".

Definition buildAnalysisPrompt (documentContent analysisType : string)
    (framework : option string) : string :=
  if String.eqb analysisType "compliance" then
    basePrompt ++ nl ++ nl
    ++ "Document Content:" ++ nl ++ documentContent ++ nl ++ nl
    ++ "Framework: " ++ orElse framework "General Compliance" ++ nl ++ nl
    ++ "Analyze this document for compliance with " ++ show framework
    ++ " requirements. Identify:" ++ nl
    ++ "1. Compliant areas" ++ nl
    ++ "2. Non-compliant areas  " ++ nl
    ++ "3. Missing requirements" ++ nl
    ++ "4. Risk assessment" ++ nl
    ++ "5. Specific recommendations" ++ nl ++ nl
    ++ "Provide a detailed analysis with severity ratings and actionable recommendations."
  else if String.eqb analysisType "gaps" then
    basePrompt ++ nl ++ nl
    ++ "Document Content:" ++ nl ++ documentContent ++ nl ++ nl
    ++ "Framework: " ++ orElse framework "General Compliance" ++ nl ++ nl
    ++ "Perform a gap analysis to identify:" ++ nl
    ++ "1. Missing controls or procedures" ++ nl
    ++ "2. Incomplete implementations" ++ nl
    ++ "3. Documentation gaps" ++ nl
    ++ "4. Process weaknesses" ++ nl
    ++ "5. Remediation priorities" ++ nl ++ nl
    ++ "Focus on actionable gaps with implementation guidance."
  else if String.eqb analysisType "recommendations" then
    basePrompt ++ nl ++ nl
    ++ "Document Content:" ++ nl ++ documentContent ++ nl ++ nl
    ++ "Framework: " ++ orElse framework "General Compliance" ++ nl ++ nl
    ++ "Provide specific recommendations to improve compliance:" ++ nl
    ++ "1. Priority improvements" ++ nl
    ++ "2. Implementation steps" ++ nl
    ++ "3. Resource requirements" ++ nl
    ++ "4. Timeline estimates" ++ nl
    ++ "5. Success metrics" ++ nl ++ nl
    ++ "Focus on practical, implementable recommendations."
  else
    basePrompt ++ nl ++ nl
    ++ "Document Content:" ++ nl ++ documentContent ++ nl ++ nl
    ++ "Provide a comprehensive analysis of this document including compliance status, gaps, and recommendations.".

(** One turn of the conversation history, as [msg.role] and [msg.content]
    print in the template. *)
Record Turn : Type := mkTurn {
  role : string;
  turn_content : string
}.

Definition buildChatPrompt (message : string) (documentContext : list string)
    (conversationHistory : list Turn) (framework : option string) : string :=
  let context :=
    match documentContext with
    | [] => ""
    | _ :: _ => nl ++ "Document Context:" ++ nl ++ String.concat (nl ++ nl) documentContext
    end in
  let history :=
    match conversationHistory with
    | [] => ""
    | _ :: _ =>
        nl ++ "Conversation History:" ++ nl
        ++ String.concat nl
             (List.map (fun msg => role msg ++ ": " ++ turn_content msg) conversationHistory)
    end in
  "You are a compliance expert assistant helping with "
  ++ orElse framework "general compliance" ++ " requirements." ++ context ++ history
  ++ nl ++ nl ++ "User Question: " ++ message ++ nl ++ nl
  ++ "Provide a helpful, accurate response based on the document context and conversation history.".

(** The properties of a requirement the gap prompt prints. *)
Record Requirement : Type := mkRequirement {
  title : string;
  status : string;
  priority : string;
  description : string
}.

Definition requirementLine (req : Requirement) : string :=
  "- " ++ title req ++ " (" ++ status req ++ ", " ++ priority req ++ " priority): "
  ++ description req.

Definition buildGapAnalysisPrompt (requirements : list Requirement)
    (documentContent framework : string) : string :=
  let reqList := String.concat nl (List.map requirementLine requirements) in
  "You are a compliance expert performing gap analysis for " ++ framework ++ "." ++ nl ++ nl
  ++ "Current Requirements:" ++ nl ++ reqList ++ nl ++ nl
  ++ "Document Content:" ++ nl ++ documentContent ++ nl ++ nl
  ++ "Analyze the gaps between requirements and current implementation:" ++ nl
  ++ "1. Identify specific gaps for each requirement" ++ nl
  ++ "2. Assess risk level and business impact" ++ nl
  ++ "3. Provide detailed remediation steps" ++ nl
  ++ "4. Estimate implementation effort and timeline" ++ nl
  ++ "5. Prioritize actions based on compliance risk" ++ nl ++ nl
  ++ "Focus on actionable insights and specific implementation guidance.".


Definition analyzeDocument (net : BedrockCall.Transport) (config : BedrockConfig)
    (now : string) (documentContent analysisType : string) (framework : option string)
  : Result JsValue :=
  BedrockCall.generateResponse net config now
    (buildAnalysisPrompt documentContent analysisType framework).

Definition chatWithDocuments (net : BedrockCall.Transport) (config : BedrockConfig)
    (now : string) (message : string) (documentContext : list string)
    (conversationHistory : list Turn) (framework : option string) : Result JsValue :=
  BedrockCall.generateResponse net config now
    (buildChatPrompt message documentContext conversationHistory framework).

Definition detectComplianceGaps (net : BedrockCall.Transport) (config : BedrockConfig)
    (now : string) (requirements : list Requirement) (documentContent framework : string)
  : Result JsValue :=
  BedrockCall.generateResponse net config now
    (buildGapAnalysisPrompt requirements documentContent framework).

End BedrockOps.

(* ===================================================================== *)
(** ** provider-manager.ts: configuration, the other calls, selection     *)
(* ===================================================================== *)

Module ManagerOps.
Import Manager.

Definition getCurrentProvider (s : State) : AIProviderType := currentProvider s.

(** [getProviderConfig(providerType?)]. *)
Definition getProviderConfig (s : State) (providerType : option AIProviderType)
  : option (gmap string JsValue) :=
  configs s !! default (currentProvider s) providerType.

(** A call [callProvider] forwards, with its arguments. *)
Inductive Call : Type :=
  | CallGenerateResponse (prompt : string)
  | CallAnalyzeDocument (documentContent analysisType : string) (framework : option string)
  | CallChatWithDocuments (message : string) (documentContext : list string)
      (conversationHistory : list BedrockOps.Turn) (framework : option string)
  | CallDetectComplianceGaps (requirements : list BedrockOps.Requirement)
      (documentContent framework : string).

Definition methodName (c : Call) : string :=
  match c with
  | CallGenerateResponse _ => "generateResponse"
  | CallAnalyzeDocument _ _ _ => "analyzeDocument"
  | CallChatWithDocuments _ _ _ _ => "chatWithDocuments"
  | CallDetectComplianceGaps _ _ _ => "detectComplianceGaps"
  end.

(** [provider[method]]: the placeholder objects have [generateResponse]
    (and [testConnection]) only. *)
Definition hasMethod (inst : ProviderInstance) (c : Call) : bool :=
  match inst, c with
  | BedrockInstance _, _ => true
  | PlaceholderInstance _ _, CallGenerateResponse _ => true
  | PlaceholderInstance _ _, _ => false
  end.

Definition invokeCall (E : Env) (t : nat) (inst : ProviderInstance) (c : Call)
  : Result JsValue :=
  match inst, c with
  | _, CallGenerateResponse prompt => invoke E t inst prompt
  | BedrockInstance config, CallAnalyzeDocument d k f =>
      BedrockOps.analyzeDocument (network E t) config (clock E t) d k f
  | BedrockInstance config, CallChatWithDocuments m ctx hist f =>
      BedrockOps.chatWithDocuments (network E t) config (clock E t) m ctx hist f
  | BedrockInstance config, CallDetectComplianceGaps reqs d f =>
      BedrockOps.detectComplianceGaps (network E t) config (clock E t) reqs d f
  | PlaceholderInstance _ _, _ =>
      (* no such property: [callProviderWith] has thrown before this *)
      Throw (TypeError "provider[method] is not a function")
  end.

(** [callProvider(providerType, method, ...args)] for every method. *)
Definition callProviderWith (E : Env) (s : State) (t : nat) (p : AIProviderType) (c : Call)
  : Result JsValue :=
  match providers s !! p with
  | Some inst =>
      if hasMethod inst c then invokeCall E t inst c
      else Throw (Error ("Method " ++ methodName c ++ " not available for provider "
                         ++ providerName p))
  | None =>
      Throw (Error ("Method " ++ methodName c ++ " not available for provider "
                    ++ providerName p))
  end.

(** The common body of [analyzeDocument], [chatWithDocuments] and
    [detectComplianceGaps]: one call on the current provider; the [catch]
    logs the error and throws it again. *)
Definition callCurrent (E : Env) (s : State) (t : nat) (c : Call) : Result AIResponse :=
  match providers s !! currentProvider s with
  | None =>
      Throw (Error ("Provider " ++ providerName (currentProvider s) ++ " not initialized"))
  | Some _ =>
      response ← callProviderWith E s t (currentProvider s) c;
      standardizeResponse (clock E t) response (currentProvider s)
  end.

Record DocumentAnalysisRequest : Type := mkAnalysisRequest {
  dar_content : string;
  dar_analysisType : string;
  dar_framework : option string
}.

Record ChatRequest : Type := mkChatRequest {
  cr_message : string;
  cr_documentContext : option (list string);
  cr_conversationHistory : option (list BedrockOps.Turn);
  cr_framework : option string
}.

Definition analyzeDocument (E : Env) (s : State) (t : nat) (request : DocumentAnalysisRequest)
  : Result AIResponse :=
  callCurrent E s t
    (CallAnalyzeDocument (dar_content request) (dar_analysisType request)
       (dar_framework request)).

Definition chatWithDocuments (E : Env) (s : State) (t : nat) (request : ChatRequest)
  : Result AIResponse :=
  callCurrent E s t
    (CallChatWithDocuments (cr_message request)
       (default [] (cr_documentContext request))
       (default [] (cr_conversationHistory request))
       (cr_framework request)).

Definition detectComplianceGaps (E : Env) (s : State) (t : nat)
    (requirements : list BedrockOps.Requirement) (documentContent framework : string)
  : Result AIResponse :=
  callCurrent E s t (CallDetectComplianceGaps requirements documentContent framework).

(** [getAvailableModels]: the list of the Bedrock provider, and the empty
    list for a provider without [listAvailableModels] or none at all. *)
Definition getAvailableModels (s : State) : list string :=
  match providers s !! currentProvider s with
  | Some (BedrockInstance _) => BedrockOps.listAvailableModels
  | _ => []
  end.

(** [testAllProviders]. *)
Definition testAllProviders (E : Env) (s : State) (t : nat) : gmap AIProviderType bool :=
  testConnection E t <$> providers s.

Definition priorityOrder : list AIProviderType := [bedrock; claude; azure; openai; local].

Definition withCurrent (s : State) (p : AIProviderType) : State :=
  {| currentProvider := p;
     providers := providers s;
     configs := configs s;
     fallbackProviders := fallbackProviders s |}.

(** [statuses[provider]?.healthy && this.providers.has(provider)]. *)
Definition usable (E : Env) (s : State) (t : nat) (p : AIProviderType) : bool :=
  match getProviderStatus E s t !! p with
  | Some st => healthy st && bool_decide (is_Some (providers s !! p))
  | None => false
  end.

(** [switchToBestProvider]: the state it leaves and the provider it
    returns, or the error it throws. *)
Definition switchToBestProvider (E : Env) (s : State) (t : nat)
  : Result (State * AIProviderType) :=
  match List.find (usable E s t) priorityOrder with
  | Some p => Ok (withCurrent s p, p)
  | None => Throw (Error "No healthy providers available")
  end.

(** *** [setProvider] and the set-up of each kind of provider *)

Definition lookupString (o : gmap string JsValue) (k : string) : option string :=
  match o !! k with
  | Some (JStr v) => Some v
  | _ => None
  end.

Definition lookupNumber (o : gmap string JsValue) (k : string) : option Q :=
  match o !! k with
  | Some (JNum q) => Some q
  | _ => None
  end.

Definition stringOf (v : JsValue) : option string :=
  match v with JStr x => Some x | _ => None end.

Definition lookupStrings (o : gmap string JsValue) (k : string) : option (list string) :=
  match o !! k with
  | Some (JArr l) => Some (omap stringOf l)
  | _ => None
  end.

(** The configuration object read as the [BedrockConfig] the interface
    declares: a string, a number or an array of strings under each name.
    A required property that is missing or [undefined] reads as the empty
    string or zero, both falsy as [undefined] is; values of other types
    than the interface declares are not represented. *)
Definition asBedrockConfig (o : gmap string JsValue) : Bedrock.BedrockConfig :=
  {| Bedrock.region := default "" (lookupString o "region");
     Bedrock.accessKeyId := lookupString o "accessKeyId";
     Bedrock.secretAccessKey := lookupString o "secretAccessKey";
     Bedrock.sessionToken := lookupString o "sessionToken";
     Bedrock.modelId := default "" (lookupString o "modelId");
     Bedrock.maxTokens := default 0%Q (lookupNumber o "maxTokens");
     Bedrock.temperature := default 0%Q (lookupNumber o "temperature");
     Bedrock.topP := lookupNumber o "topP";
     Bedrock.stopSequences := lookupStrings o "stopSequences" |}.

(** [{ region: process.env.AWS_REGION || 'us-east-1', modelId: ..., ... }]. *)
Definition bedrockDefaults (awsRegion : option string) : gmap string JsValue :=
  <["region" := JStr (BedrockOps.orElse awsRegion "us-east-1")]>
  (<["modelId" := JStr "anthropic.claude-3-sonnet-20240229-v1:0"]>
  (<["maxTokens" := JNum 2000]>
  (<["temperature" := JNum (3 # 10)]>
  (<["topP" := JNum (9 # 10)]> ∅)))).

(** [{ ...a, ...b }]: the properties of [b] win. *)
Definition spread (a b : gmap string JsValue) : gmap string JsValue := b ∪ a.

(** The state a set-up or [setProvider] leaves, and the error it threw. *)
Definition Step : Type := (State * option JsError)%type.

Definition setupBedrockProvider (awsRegion : option string) (s : State)
    (config : option (gmap string JsValue)) : Step :=
  let defaultConfig := spread (bedrockDefaults awsRegion) (default ∅ config) in
  match BedrockOps.initialize (asBedrockConfig defaultConfig) with
  | Throw e => (s, Some e)
  | Ok _ =>
      ({| currentProvider := currentProvider s;
          providers := <[bedrock := BedrockInstance (asBedrockConfig defaultConfig)]>
                         (providers s);
          configs := <[bedrock := defaultConfig]> (configs s);
          fallbackProviders := fallbackProviders s |}, None)
  end.

(** [config?.modelId || fallback]. *)
Definition modelOr (config : option (gmap string JsValue)) (fallback : string) : string :=
  BedrockOps.orElse (config ≫= fun o => lookupString o "modelId") fallback.

(** [setupOpenAIProvider] and its three siblings. *)
Definition setupPlaceholder (p : AIProviderType) (completion fallbackModel : string)
    (s : State) (config : option (gmap string JsValue)) : Step :=
  ({| currentProvider := currentProvider s;
      providers := <[p := PlaceholderInstance completion (modelOr config fallbackModel)]>
                     (providers s);
      configs := match config with
                 | Some o => <[p := o]> (configs s)
                 | None => configs s
                 end;
      fallbackProviders := fallbackProviders s |}, None).

Definition setup (awsRegion : option string) (p : AIProviderType) (s : State)
    (config : option (gmap string JsValue)) : Step :=
  match p with
  | bedrock => setupBedrockProvider awsRegion s config
  | openai => setupPlaceholder openai "OpenAI response placeholder" "gpt-4" s config
  | claude => setupPlaceholder claude "Claude response placeholder" "claude-3-sonnet" s config
  | azure => setupPlaceholder azure "Azure OpenAI response placeholder" "gpt-4" s config
  | local => setupPlaceholder local "Local model response placeholder" "local-llm" s config
  end.

(** [setProvider(providerType, config)]. *)
Definition setProvider (awsRegion : option string) (s : State) (providerType : AIProviderType)
    (config : gmap string JsValue) : Step :=
  let s1 := {| currentProvider := currentProvider s;
               providers := providers s;
               configs := <[providerType := config]> (configs s);
               fallbackProviders := fallbackProviders s |} in
  match setup awsRegion providerType s1 (Some config) with
  | (s2, None) => (withCurrent s2 providerType, None)
  | (s2, Some e) => (s2, Some e)
  end.

(** [updateProviderConfig(providerType, updates)]. *)
Definition updateProviderConfig (awsRegion : option string) (s : State)
    (providerType : AIProviderType) (updates : gmap string JsValue) : Step :=
  match configs s !! providerType with
  | None =>
      (s, Some (Error ("No configuration found for provider " ++ providerName providerType)))
  | Some currentConfig => setProvider awsRegion s providerType (spread currentConfig updates)
  end.

(** The manager as its constructor leaves it once [initializeProviders]
    has run: the Bedrock provider on the defaults, if they pass. *)
Definition emptyState : State :=
  {| currentProvider := bedrock; providers := ∅; configs := ∅; fallbackProviders := [] |}.

Definition initialState (awsRegion : option string) : State :=
  fst (setupBedrockProvider awsRegion emptyState None).

(** Every provider of the fallback chain is registered. *)
Definition chainRegistered (s : State) : Prop :=
  Forall (fun p => is_Some (providers s !! p)) (fallbackProviders s).

End ManagerOps.

(* ===================================================================== *)
(** ** The [BedrockProvider] object: construction and [updateConfig]      *)
(* ===================================================================== *)

Module BedrockObjectOps.
Import BedrockObject.

Definition endpointFor (region : string) : string :=
  "https://bedrock-runtime." ++ region ++ ".amazonaws.com".

(** [new BedrockProvider(config)]: the provider keeps the reference it is
    given ([this.config = config]) and builds its endpoint once. *)
Definition construct (h : Heap) (l : loc) : option BedrockProvider :=
  o ← objects h !! l;
  Some {| config := l; endpoint := endpointFor (o_region o) |}.

(** A [Partial<BedrockConfig>]: for each property, whether the update
    names it and the value it gives.  An optional property may be given
    as [undefined] ([Some None]); an update that gives [undefined] to a
    property the interface requires is not represented. *)
Record ConfigUpdate : Type := mkUpdate {
  u_region : option string;
  u_accessKeyId : option (option string);
  u_secretAccessKey : option (option string);
  u_sessionToken : option (option string);
  u_modelId : option string;
  u_maxTokens : option Q;
  u_temperature : option Q;
  u_topP : option (option Q);
  u_stopSequences : option (option loc)
}.

(** [{ ...o, ...u }]. *)
Definition applyUpdate (u : ConfigUpdate) (o : ConfigObject) : ConfigObject :=
  {| o_region := default (o_region o) (u_region u);
     o_accessKeyId := default (o_accessKeyId o) (u_accessKeyId u);
     o_secretAccessKey := default (o_secretAccessKey o) (u_secretAccessKey u);
     o_sessionToken := default (o_sessionToken o) (u_sessionToken u);
     o_modelId := default (o_modelId o) (u_modelId u);
     o_maxTokens := default (o_maxTokens o) (u_maxTokens u);
     o_temperature := default (o_temperature o) (u_temperature u);
     o_topP := default (o_topP o) (u_topP u);
     o_stopSequences := default (o_stopSequences o) (u_stopSequences u) |}.

(** [updateConfig(newConfig)]: a new object takes the place of [this.config]
    and the endpoint is built again from its region. *)
Definition updateConfig (h : Heap) (p : BedrockProvider) (u : ConfigUpdate)
  : option (Heap * BedrockProvider) :=
  o ← objects h !! config p;
  let o' := applyUpdate u o in
  let l := freshLoc h in
  Some ({| objects := <[l := o']> (objects h); arrays := arrays h |},
        {| config := l; endpoint := endpointFor (o_region o') |}).

(** The endpoint of the provider is the one of the region it would read. *)
Definition endpointInStep (h : Heap) (p : BedrockProvider) : Prop :=
  ∃ o, objects h !! config p = Some o ∧ endpoint p = endpointFor (o_region o).

End BedrockObjectOps.

(* ===================================================================== *)
(** ** Tables the statements below refer to                               *)
(* ===================================================================== *)

Module Tables.


(** The prices of [calculate_ai_usage_cost] per prompt token and per
    completion token, in units of 10^-8 dollars. *)
Definition prices : list (Z * Z) :=
  [(300, 1500); (25, 125); (50, 150); (3000, 6000); (100, 200)]%Z.

End Tables.

(* ===================================================================== *)
(** ** Concrete configurations, responses and states                      *)
(* ===================================================================== *)

(** The inputs the theorems below are tried on. *)

Definition sonnetConfig : Bedrock.BedrockConfig :=
  {| Bedrock.region := "us-east-1";
     Bedrock.accessKeyId := None;
     Bedrock.secretAccessKey := None;
     Bedrock.sessionToken := None;
     Bedrock.modelId := "anthropic.claude-3-sonnet-20240229-v1:0";
     Bedrock.maxTokens := 2000;
     Bedrock.temperature := (3 # 10)%Q;
     Bedrock.topP := Some (9 # 10)%Q;
     Bedrock.stopSequences := None |}.

Definition withModel (m : string) : Bedrock.BedrockConfig :=
  {| Bedrock.region := "us-east-1";
     Bedrock.accessKeyId := None;
     Bedrock.secretAccessKey := None;
     Bedrock.sessionToken := None;
     Bedrock.modelId := m;
     Bedrock.maxTokens := 2000;
     Bedrock.temperature := (3 # 10)%Q;
     Bedrock.topP := Some (9 # 10)%Q;
     Bedrock.stopSequences := None |}.

Definition llamaFirst : list (string * Bedrock.ModelFamily) :=
  [("llama", Bedrock.FamLlama); ("claude", Bedrock.FamClaude); ("titan", Bedrock.FamTitan);
   ("jurassic", Bedrock.FamAi21); ("cohere", Bedrock.FamCohere)].

Definition onlyCompletion : JsValue := JObj (<["completion" := JStr "Hello"]> ∅).

Definition emptyObject : JsValue := JObj ∅.

(** A user, and the identifier [gen_random_uuid()] gives a new row. *)
Definition analystId : string := "6f1c2d3e-4a5b-4c6d-8e7f-0a1b2c3d4e5f".

Definition usageId : string := "0b9d7c1e-2f3a-4b5c-9d6e-7f8091a2b3c4".

Definition sonnetRow : Sql.UsageRow :=
  {| Sql.id := usageId; Sql.user_id := analystId; Sql.project_id := None;
     Sql.ai_provider := "bedrock";
     Sql.ai_model := "anthropic.claude-3-sonnet-20240229-v1:0";
     Sql.operation_type := "chat";
     Sql.prompt_tokens := 1200; Sql.completion_tokens := 300; Sql.total_tokens := 1500;
     Sql.cost_estimate := 8100; Sql.processing_time := Some 950%Z;
     Sql.success := true; Sql.error_message := None |}.

(** A provider configured with stop sequences of its own. *)
Definition stopObject : BedrockObject.ConfigObject :=
  {| BedrockObject.o_region := "us-east-1";
     BedrockObject.o_accessKeyId := None;
     BedrockObject.o_secretAccessKey := None;
     BedrockObject.o_sessionToken := None;
     BedrockObject.o_modelId := "anthropic.claude-v2:1";
     BedrockObject.o_maxTokens := 2000;
     BedrockObject.o_temperature := (3 # 10)%Q;
     BedrockObject.o_topP := None;
     BedrockObject.o_stopSequences := Some 1%nat |}.

Definition stopHeap : BedrockObject.Heap :=
  {| BedrockObject.objects := {[ 0%nat := stopObject ]};
     BedrockObject.arrays := {[ 1%nat := ["END"] ]} |}.

Definition stopProvider : BedrockObject.BedrockProvider :=
  {| BedrockObject.config := 0%nat;
     BedrockObject.endpoint := "https://bedrock-runtime.us-east-1.amazonaws.com" |}.

Definition stopCopy : BedrockObject.Heap :=
  {| BedrockObject.objects := <[ 2%nat := stopObject ]> {[ 0%nat := stopObject ]};
     BedrockObject.arrays := {[ 1%nat := ["END"] ]} |}.

Definition isoTime : string := "2024-01-01T00:00:00.000Z".

(** A world in which the Bedrock endpoint cannot be reached. *)
Definition downEnv : Manager.Env :=
  {| Manager.network := fun _ _ _ _ => Throw (Error "fetch failed");
     Manager.clock := fun _ => isoTime;
     Manager.converted := fun _ => false |}.

(** The manager with the Bedrock provider of its constructor and the
    OpenAI placeholder registered, and no fallback chain yet. *)
Definition baseState : Manager.State :=
  {| Manager.currentProvider := Manager.bedrock;
     Manager.providers :=
       <[Manager.openai := Manager.PlaceholderInstance "OpenAI response placeholder" "gpt-4"]>
       {[ Manager.bedrock := Manager.BedrockInstance sonnetConfig ]};
     Manager.configs := ∅;
     Manager.fallbackProviders := [] |}.

Definition openaiChain : Manager.State :=
  Manager.setFallbackProviders baseState [Manager.openai].

Definition bedrockChain : Manager.State :=
  Manager.setFallbackProviders baseState [Manager.bedrock].

Definition chainState : Manager.State :=
  Manager.setFallbackProviders baseState [Manager.bedrock; Manager.openai; Manager.local].

Definition bedrockDown : JsError := Error "Failed to generate response: fetch failed".

Definition openaiResponse : Manager.AIResponse :=
  {| Manager.content := JStr "OpenAI response placeholder";
     Manager.usage := JUndefined;
     Manager.model := JStr "gpt-4";
     Manager.provider := Manager.openai;
     Manager.timestamp := JStr isoTime;
     Manager.stopReason := JUndefined;
     Manager.originalResponse :=
       JObj (<["completion" := JStr "OpenAI response placeholder"]>
            (<["model" := JStr "gpt-4"]>
            (<["timestamp" := JStr isoTime]> ∅))) |}.

Definition keyedConfig (secret : string) : Bedrock.BedrockConfig :=
  {| Bedrock.region := "us-east-1";
     Bedrock.accessKeyId := Some "AKIAEXAMPLE";
     Bedrock.secretAccessKey := Some secret;
     Bedrock.sessionToken := None;
     Bedrock.modelId := "anthropic.claude-3-sonnet-20240229-v1:0";
     Bedrock.maxTokens := 2000;
     Bedrock.temperature := (3 # 10)%Q;
     Bedrock.topP := Some (9 # 10)%Q;
     Bedrock.stopSequences := None |}.

Definition keyedObject (secret : string) : gmap string JsValue :=
  <["secretAccessKey" := JStr secret]>
  (<["accessKeyId" := JStr "AKIAEXAMPLE"]>
  (<["modelId" := JStr "anthropic.claude-3-sonnet-20240229-v1:0"]>
  (<["region" := JStr "us-east-1"]> ∅))).

Definition keyedState (secret : string) : Manager.State :=
  {| Manager.currentProvider := Manager.bedrock;
     Manager.providers := {[ Manager.bedrock := Manager.BedrockInstance (keyedConfig secret) ]};
     Manager.configs := {[ Manager.bedrock := keyedObject secret ]};
     Manager.fallbackProviders := [] |}.

(** A titan response that reports its token usage. *)
Definition titanWithUsage : JsValue :=
  JObj (<["results" := JArr [JObj (<["outputText" := JStr "Hi"]>
                                  (<["completionReason" := JStr "FINISH"]> ∅))]]>
       (<["usage" := JObj (<["prompt_tokens" := JNum 12]>
                          (<["completion_tokens" := JNum 3]> ∅))]> ∅)).

Definition openaiObject : gmap string JsValue :=
  <["provider" := JStr "openai"]>
  (<["modelId" := JStr "gpt-4o"]>
  (<["apiKey" := JStr "sk-example"]> ∅)).

(** The manager after [setProvider('openai', ...)] on its initial state. *)
Definition openaiState : Manager.State :=
  fst (ManagerOps.setProvider None (ManagerOps.initialState None) Manager.openai openaiObject).

Definition gapsRequest : ManagerOps.DocumentAnalysisRequest :=
  {| ManagerOps.dar_content := "Access is reviewed yearly.";
     ManagerOps.dar_analysisType := "gaps";
     ManagerOps.dar_framework := Some "SOC 2" |}.

Definition chatRequest : ManagerOps.ChatRequest :=
  {| ManagerOps.cr_message := "Which controls are missing?";
     ManagerOps.cr_documentContext := None;
     ManagerOps.cr_conversationHistory := None;
     ManagerOps.cr_framework := None |}.

Definition keyedStatus : Manager.ProviderStatus :=
  Manager.statusOf downEnv (keyedState "first-secret") 0 Manager.bedrock
    (Manager.BedrockInstance (keyedConfig "first-secret")).



Definition otherModel : BedrockObjectOps.ConfigUpdate :=
  {| BedrockObjectOps.u_region := Some "eu-west-1";
     BedrockObjectOps.u_accessKeyId := None;
     BedrockObjectOps.u_secretAccessKey := None;
     BedrockObjectOps.u_sessionToken := None;
     BedrockObjectOps.u_modelId := Some "not-a-listed-model";
     BedrockObjectOps.u_maxTokens := None;
     BedrockObjectOps.u_temperature := None;
     BedrockObjectOps.u_topP := None;
     BedrockObjectOps.u_stopSequences := None |}.

Definition stopUpdated : BedrockObject.Heap :=
  {| BedrockObject.objects :=
       <[ 2%nat := BedrockObjectOps.applyUpdate otherModel stopObject ]>
       {[ 0%nat := stopObject ]};
     BedrockObject.arrays := {[ 1%nat := ["END"] ]} |}.

Definition stopProviderUpdated : BedrockObject.BedrockProvider :=
  {| BedrockObject.config := 2%nat;
     BedrockObject.endpoint := "https://bedrock-runtime.eu-west-1.amazonaws.com" |}.

(* ===================================================================== *)
(** ** Theorems                                                           *)
(* ===================================================================== *)

(** *** Model-family classification *)

Section Classification.
Import Bedrock Spec.

Lemma getModelFamily_classifyWith (config : BedrockConfig) :
  getModelFamily config = classifyWith sourceChecks (toLowerCase (modelId config)).
Proof.
  unfold getModelFamily, sourceChecks; cbn [classifyWith].
  repeat (destruct (includes _ _); [reflexivity |]); reflexivity.
Qed.

(** The answer of [classifyWith] is the family of the first check, in the
    order given, among those that match. *)
Lemma classifyWith_filter (checks : list (string * ModelFamily)) (modelId : string) :
  classifyWith checks modelId =
  match List.filter (fun c => includes modelId (fst c)) checks with
  | [] => FamGeneric
  | c :: _ => snd c
  end.
Proof.
  induction checks as [| [tag family] rest IH]; [reflexivity |].
  cbn [classifyWith List.filter fst].
  destruct (includes modelId tag); [reflexivity | exact IH].
Qed.

Lemma filter_Permutation {A} (f : A -> bool) (l l' : list A) :
  l ≡ₚ l' -> List.filter f l ≡ₚ List.filter f l'.
Proof.
  induction 1 as [| x l l' _ IH | x y l | l l' l'' _ IH1 _ IH2]; cbn [List.filter].
  - reflexivity.
  - destruct (f x); [constructor |]; exact IH.
  - destruct (f x), (f y); try reflexivity. apply perm_swap.
  - etransitivity; eassumption.
Qed.

Lemma short_Permutation_eq {A} (l l' : list A) :
  l ≡ₚ l' -> (List.length l <= 1)%nat -> l = l'.
Proof.
  intros HP Hlen. destruct l as [| x [| y l]]; cbn in Hlen; [| | lia].
  - symmetry. apply Permutation.Permutation_nil. exact HP.
  - symmetry. apply Permutation.Permutation_length_1_inv. exact HP.
Qed.

(** C4, amended: the classification of [getModelFamily] is the same under
    every re-ordering of its five substring checks for each model
    identifier that contains at most one of the vendor tags. *)
Theorem getModelFamily_order_independent_single_tag
    (config : BedrockConfig) (checks : list (string * ModelFamily)) :
  checks ≡ₚ sourceChecks ->
  (List.length (tagsIn (toLowerCase (modelId config))) <= 1)%nat ->
  classifyWith checks (toLowerCase (modelId config)) = getModelFamily config.
Proof.
  intros HP Hone.
  rewrite getModelFamily_classifyWith, !classifyWith_filter.
  apply (filter_Permutation (fun c => includes (toLowerCase (modelId config)) (fst c)))
    in HP.
  symmetry in HP. apply short_Permutation_eq in HP; [| exact Hone].
  rewrite <- HP. reflexivity.
Qed.

End Classification.

Lemma getModelFamily_order_independent_witness :
  llamaFirst ≡ₚ Spec.sourceChecks
  ∧ (List.length (Spec.tagsIn (toLowerCase (Bedrock.modelId sonnetConfig))) <= 1)%nat
  ∧ Spec.classifyWith llamaFirst (toLowerCase (Bedrock.modelId sonnetConfig))
    = Bedrock.getModelFamily sonnetConfig.
Proof.
  assert (HP : llamaFirst ≡ₚ Spec.sourceChecks) by apply perm_swap.
  assert (Hone : (List.length (Spec.tagsIn (toLowerCase (Bedrock.modelId sonnetConfig)))
                  <= 1)%nat) by (vm_compute; lia).
  split; [exact HP |]. split; [exact Hone |].
  exact (getModelFamily_order_independent_single_tag sonnetConfig llamaFirst HP Hone).
Defined.

(** C4 as stated fails: an identifier with two vendor tags is classified
    by whichever of the two checks runs first.  The source answers
    [claude] for "meta.llama-claude-mix"; with the [llama] check moved to
    the front the answer is [llama]. *)
Lemma getModelFamily_order_matters :
  ¬ (∀ (checks : list (string * Bedrock.ModelFamily)) (config : Bedrock.BedrockConfig),
        checks ≡ₚ Spec.sourceChecks ->
        Spec.classifyWith checks (toLowerCase (Bedrock.modelId config))
        = Bedrock.getModelFamily config).
Proof.
  intros H.
  specialize (H llamaFirst (withModel "meta.llama-claude-mix") (perm_swap _ _ _)).
  vm_compute in H. discriminate H.
Qed.

(** *** Response normalization *)

Section Normalization.
Import Bedrock Manager Spec.

Lemma getProp_defined (v : JsValue) (k : string) :
  v ≠ JNull -> v ≠ JUndefined -> ∃ x, getProp v k = Ok x.
Proof.
  intros Hnull Hundef. destruct v; try congruence; cbn [getProp]; eauto.
  - destruct (String.eqb k "length"); [eauto |]. destruct (arrayIndex k); eauto.
  - destruct (String.eqb k "length"); [eauto |]. destruct (arrayIndex k); eauto.
Qed.

Lemma getProp_Ok_defined (v : JsValue) (k : string) (x : JsValue) :
  getProp v k = Ok x -> v ≠ JNull ∧ v ≠ JUndefined.
Proof. destruct v; cbn [getProp]; intros H; split; congruence. Qed.

Lemma optProp_defined (v : JsValue) (k : string) : ∃ x, optProp v k = Ok x.
Proof.
  destruct v; cbn [optProp]; eauto; apply getProp_defined; congruence.
Qed.

(** [standardizeResponse] of an object reads seven of its properties and
    cannot throw. *)
Lemma standardizeResponse_object (now : string) (m : gmap string JsValue)
    (p : AIProviderType) :
  let g k := default JUndefined (m !! k) in
  standardizeResponse now (JObj m) p =
  Ok {| content := jsOr (g "completion") (jsOr (g "content") (jsOr (g "text") (JStr "")));
        usage := g "usage";
        model := jsOr (g "model") (JStr "unknown");
        provider := p;
        timestamp := jsOr (g "timestamp") (JStr now);
        stopReason := g "stop_reason";
        originalResponse := JObj m |}.
Proof.
  intros g. subst g. unfold standardizeResponse, jsOr.
  cbn beta. cbn [getProp mbind result_bind].
  destruct (isTruthy (default JUndefined (m !! "completion"))); [reflexivity |].
  cbn [mbind result_bind].
  destruct (isTruthy (default JUndefined (m !! "content"))); reflexivity.
Qed.

Ltac read_wire wire k :=
  let x := fresh "x" in
  let Hx := fresh "Hx" in
  destruct (getProp_defined wire k) as [x Hx]; [assumption | assumption |];
  rewrite ?Hx; cbn [mbind result_bind].

Ltac read_opt v k :=
  let x := fresh "x" in
  let Hx := fresh "Hx" in
  destruct (optProp_defined v k) as [x Hx];
  rewrite ?Hx; cbn [mbind result_bind].

(** Every wire response other than [null] parses, whatever the family. *)
Lemma parseResponse_defined (config : BedrockConfig) (now : string) (wire : JsValue) :
  wire ≠ JNull -> wire ≠ JUndefined ->
  ∃ m, parseResponse config now wire = Ok (JObj m).
Proof.
  intros Hnull Hundef. unfold parseResponse.
  destruct (getModelFamily config).
  - read_wire wire "completion". read_wire wire "stop_reason". read_wire wire "usage".
    eauto.
  - read_wire wire "generation". read_wire wire "stop_reason". eauto.
  - read_wire wire "results". read_opt x "0". read_opt x0 "outputText".
    read_opt x0 "completionReason". eauto.
  - read_wire wire "completion". read_wire wire "text". read_wire wire "stop_reason".
    destruct (isTruthy x); cbn [mbind result_bind]; eauto.
  - read_wire wire "completion". read_wire wire "text". read_wire wire "stop_reason".
    destruct (isTruthy x); cbn [mbind result_bind]; eauto.
  - read_wire wire "completion". read_wire wire "text". read_wire wire "stop_reason".
    destruct (isTruthy x); cbn [mbind result_bind]; eauto.
Qed.

(** C5, amended: for every model family and every wire response other
    than [null] whose usage block is missing, normalization returns a
    response and raises nothing; the usage of that response is
    [undefined]: no token counts, zero or other, are put in its place. *)
Theorem normalize_without_usage_block
    (config : BedrockConfig) (now : string) (wire : JsValue) :
  getProp wire "usage" = Ok JUndefined ->
  ∃ r, normalize config now wire = Ok r ∧ usage r = JUndefined.
Proof.
  intros Husage.
  destruct (getProp_Ok_defined _ _ _ Husage) as [Hnull Hundef].
  unfold normalize, parseResponse.
  destruct (getModelFamily config).
  - read_wire wire "completion". read_wire wire "stop_reason".
    rewrite Husage; cbn [mbind result_bind].
    rewrite standardizeResponse_object. eexists; split; reflexivity.
  - read_wire wire "generation". read_wire wire "stop_reason".
    rewrite standardizeResponse_object. eexists; split; reflexivity.
  - read_wire wire "results". read_opt x "0". read_opt x0 "outputText".
    read_opt x0 "completionReason".
    rewrite standardizeResponse_object. eexists; split; reflexivity.
  - read_wire wire "completion". read_wire wire "text". read_wire wire "stop_reason".
    destruct (isTruthy x); cbn [mbind result_bind];
      rewrite standardizeResponse_object; eexists; split; reflexivity.
  - read_wire wire "completion". read_wire wire "text". read_wire wire "stop_reason".
    destruct (isTruthy x); cbn [mbind result_bind];
      rewrite standardizeResponse_object; eexists; split; reflexivity.
  - read_wire wire "completion". read_wire wire "text". read_wire wire "stop_reason".
    destruct (isTruthy x); cbn [mbind result_bind];
      rewrite standardizeResponse_object; eexists; split; reflexivity.
Qed.

(** The wire response [null] is the one that makes normalization raise. *)
Lemma normalize_null_throws (config : BedrockConfig) (now : string) :
  ∃ e, normalize config now JNull = Throw e.
Proof.
  unfold normalize, parseResponse.
  destruct (getModelFamily config); cbn; eauto.
Qed.

(** C6, amended: for every model family, a wire response with none of the
    family's text fields normalizes to a response, not an error, whose
    content is the empty string.  When the response has no finish reason
    either, the finish reason of the result is "finished" for the titan
    family and for the families of the default branch (ai21, cohere,
    generic), "end_turn" for llama, and [undefined] for claude. *)
Theorem normalize_without_text
    (config : BedrockConfig) (now : string) (wire : JsValue) :
  lacksText (getModelFamily config) wire ->
  ∃ r, normalize config now wire = Ok r
       ∧ content r = JStr ""
       ∧ (lacksFinishReason (getModelFamily config) wire ->
          stopReason r = match getModelFamily config with
                         | FamClaude => JUndefined
                         | FamLlama => JStr "end_turn"
                         | _ => JStr "finished"
                         end).
Proof.
  unfold lacksText, lacksFinishReason, normalize, parseResponse.
  destruct (getModelFamily config); cbn [textReads finishRead]; intros Htext.
  - apply Forall_cons_1 in Htext as [Hc _].
    destruct (getProp_Ok_defined _ _ _ Hc) as [Hnull Hundef].
    rewrite Hc; cbn [mbind result_bind].
    read_wire wire "stop_reason". read_wire wire "usage".
    rewrite standardizeResponse_object. eexists; split; [reflexivity |].
    split; [reflexivity |]. intros Hs. injection Hs as ->. reflexivity.
  - apply Forall_cons_1 in Htext as [Hc _].
    destruct (getProp_Ok_defined _ _ _ Hc) as [Hnull Hundef].
    rewrite Hc; cbn [mbind result_bind].
    read_wire wire "stop_reason".
    rewrite standardizeResponse_object. eexists; split; [reflexivity |].
    split; [reflexivity |]. intros Hs. injection Hs as ->. reflexivity.
  - apply Forall_cons_1 in Htext as [Hc _].
    destruct (getProp wire "results") as [results |] eqn:Hr; [| discriminate Hc].
    cbn [mbind result_bind] in Hc |- *.
    destruct (optProp results "0") as [first |] eqn:Hf; [| discriminate Hc].
    cbn [mbind result_bind] in Hc |- *.
    rewrite Hc; cbn [mbind result_bind].
    read_opt first "completionReason".
    rewrite standardizeResponse_object. eexists; split; [reflexivity |].
    split; [reflexivity |]. intros Hs. injection Hs as ->. reflexivity.
  - apply Forall_cons_1 in Htext as [Hc Htext]. apply Forall_cons_1 in Htext as [Ht _].
    destruct (getProp_Ok_defined _ _ _ Hc) as [Hnull Hundef].
    rewrite Hc; cbn [mbind result_bind isTruthy]. rewrite Ht; cbn [mbind result_bind].
    read_wire wire "stop_reason".
    rewrite standardizeResponse_object. eexists; split; [reflexivity |].
    split; [reflexivity |]. intros Hs. injection Hs as ->. reflexivity.
  - apply Forall_cons_1 in Htext as [Hc Htext]. apply Forall_cons_1 in Htext as [Ht _].
    destruct (getProp_Ok_defined _ _ _ Hc) as [Hnull Hundef].
    rewrite Hc; cbn [mbind result_bind isTruthy]. rewrite Ht; cbn [mbind result_bind].
    read_wire wire "stop_reason".
    rewrite standardizeResponse_object. eexists; split; [reflexivity |].
    split; [reflexivity |]. intros Hs. injection Hs as ->. reflexivity.
  - apply Forall_cons_1 in Htext as [Hc Htext]. apply Forall_cons_1 in Htext as [Ht _].
    destruct (getProp_Ok_defined _ _ _ Hc) as [Hnull Hundef].
    rewrite Hc; cbn [mbind result_bind isTruthy]. rewrite Ht; cbn [mbind result_bind].
    read_wire wire "stop_reason".
    rewrite standardizeResponse_object. eexists; split; [reflexivity |].
    split; [reflexivity |]. intros Hs. injection Hs as ->. reflexivity.
Qed.

End Normalization.

Lemma normalize_without_usage_block_witness :
  getProp onlyCompletion "usage" = Ok JUndefined
  ∧ ∃ r, Spec.normalize sonnetConfig "2024-01-01T00:00:00.000Z" onlyCompletion = Ok r
         ∧ Manager.usage r = JUndefined.
Proof.
  split; [reflexivity |].
  apply (normalize_without_usage_block sonnetConfig "2024-01-01T00:00:00.000Z" onlyCompletion).
  reflexivity.
Defined.

(** C5 as stated fails: a claude response without a usage block normalizes
    to a response whose usage is [undefined]; it has no token counts, so
    none of them is zero. *)
Lemma normalize_usage_not_zeroed :
  ¬ (∃ r, Spec.normalize sonnetConfig "2024-01-01T00:00:00.000Z" onlyCompletion = Ok r
          ∧ Spec.zeroUsage (Manager.usage r)).
Proof.
  intros (r & Hr & Hzero & _).
  vm_compute in Hr. injection Hr as <-.
  vm_compute in Hzero. discriminate Hzero.
Qed.

Lemma normalize_without_text_witness :
  Spec.lacksText (Bedrock.getModelFamily (withModel "amazon.titan-text-express-v1")) emptyObject
  ∧ Spec.lacksFinishReason
      (Bedrock.getModelFamily (withModel "amazon.titan-text-express-v1")) emptyObject
  ∧ ∃ r, Spec.normalize (withModel "amazon.titan-text-express-v1") "now" emptyObject = Ok r
         ∧ Manager.content r = JStr ""
         ∧ Manager.stopReason r = JStr "finished".
Proof.
  assert (Htext : Spec.lacksText
                    (Bedrock.getModelFamily (withModel "amazon.titan-text-express-v1"))
                    emptyObject).
  { vm_compute. constructor; [reflexivity | constructor]. }
  assert (Hfinish : Spec.lacksFinishReason
                      (Bedrock.getModelFamily (withModel "amazon.titan-text-express-v1"))
                      emptyObject) by reflexivity.
  split; [exact Htext |]. split; [exact Hfinish |].
  destruct (normalize_without_text (withModel "amazon.titan-text-express-v1") "now"
              emptyObject Htext) as (r & Hr & Hcontent & Hstop).
  exists r. split; [exact Hr |]. split; [exact Hcontent |]. exact (Hstop Hfinish).
Defined.

(** C6 as stated fails: the finish reason of a llama response without text
    and without finish reason is "end_turn", not "finished". *)
Lemma normalize_finish_reason_not_finished :
  Spec.lacksText (Bedrock.getModelFamily (withModel "meta.llama2-70b-chat-v1")) emptyObject
  ∧ ¬ (∃ r, Spec.normalize (withModel "meta.llama2-70b-chat-v1") "now" emptyObject = Ok r
            ∧ Manager.content r = JStr ""
            ∧ Manager.stopReason r = JStr "finished").
Proof.
  split.
  - vm_compute. constructor; [reflexivity | constructor].
  - intros (r & Hr & _ & Hstop).
    vm_compute in Hr. injection Hr as <-.
    vm_compute in Hstop. discriminate Hstop.
Qed.

(** *** Usage cost and usage records *)

(** One conversion or statement of a run that ended well. *)
Ltac sql_step H :=
  match type of H with
  | context [mbind _ ?c] =>
      let x := fresh "x" in
      let Hx := fresh "Hx" in
      destruct c as [x |] eqn:Hx; cbn [mbind Sql.sql_bind] in H; [| discriminate H]
  end.

Section Usage.
Import Sql.
Local Open Scope Z_scope.

Lemma int4_Done (z z' : Z) : int4 z = Done z' -> z' = z.
Proof. unfold int4. destruct (_ && _); congruence. Qed.

(** Without a price for the pair, neither CASE statement finds a branch. *)
Lemma calculate_ai_usage_cost_unpriced (provider_name model_name : string) (p c : Z) :
  Spec.hasPrice provider_name model_name = false ->
  calculate_ai_usage_cost provider_name model_name p c = Raise CaseNotFound.
Proof.
  unfold Spec.hasPrice, calculate_ai_usage_cost.
  destruct (String.eqb provider_name "bedrock").
  - cbn [andb orb].
    destruct (like model_name "claude-3-sonnet"); [discriminate |].
    destruct (like model_name "claude-3-haiku"); [discriminate |].
    destruct (like model_name "titan"); [discriminate |]. reflexivity.
  - cbn [andb orb]. destruct (String.eqb provider_name "openai"); [| reflexivity].
    cbn [andb].
    destruct (String.eqb model_name "gpt-4"); [discriminate |].
    destruct (String.eqb model_name "gpt-3.5-turbo"); [discriminate |]. reflexivity.
Qed.

(** C7 on a model the Bedrock provider itself lists as available: the
    pair has no price, and the function raises case_not_found instead of
    returning zero. *)
Theorem calculate_ai_usage_cost_llama_raises :
  Spec.hasPrice "bedrock" "meta.llama2-70b-chat-v1" = false
  ∧ calculate_ai_usage_cost "bedrock" "meta.llama2-70b-chat-v1" 1000 500
    = Raise CaseNotFound.
Proof. split; reflexivity. Qed.

(** The failure reaches the caller: no usage row is written. *)
Lemma track_ai_usage_unpriced (fresh : string) (table : list UsageRow)
    (u : string) (pr : option string) (provider_name model_name op : string)
    (p c : Z) (t : option Z) (ok : bool) (msg : option string) :
  Spec.hasPrice provider_name model_name = false ->
  ∃ e, track_ai_usage fresh table u pr provider_name model_name op p c t ok msg = Raise e.
Proof.
  intros H. unfold track_ai_usage.
  destruct (uuid_in u); cbn [mbind sql_bind]; [| eauto].
  destruct (nullable uuid_in pr); cbn [mbind sql_bind]; [| eauto].
  destruct (int4 p); cbn [mbind sql_bind]; [| eauto].
  destruct (int4 c); cbn [mbind sql_bind]; [| eauto].
  destruct (nullable int4 t); cbn [mbind sql_bind]; [| eauto].
  rewrite calculate_ai_usage_cost_unpriced by exact H. cbn [mbind sql_bind]. eauto.
Qed.

(** C8: the row [track_ai_usage] writes records as total the sum of the
    prompt and completion counts it records. *)
Theorem track_ai_usage_total (fresh : string) (table table' : list UsageRow)
    (u : string) (pr : option string) (provider_name model_name op : string)
    (p c : Z) (t : option Z) (ok : bool) (msg : option string) (usage_id : string) :
  track_ai_usage fresh table u pr provider_name model_name op p c t ok msg
    = Done (table', usage_id) ->
  ∃ row, table' = (table ++ [row])%list
         ∧ id row = usage_id
         ∧ prompt_tokens row = p
         ∧ completion_tokens row = c
         ∧ total_tokens row = prompt_tokens row + completion_tokens row.
Proof.
  unfold track_ai_usage. intros H.
  sql_step H. sql_step H.
  destruct (int4 p) as [p' |] eqn:Hp; cbn [mbind sql_bind] in H; [| discriminate].
  destruct (int4 c) as [c' |] eqn:Hc; cbn [mbind sql_bind] in H; [| discriminate].
  do 5 sql_step H.
  destruct (int4 (p' + c')) as [total |] eqn:Ht; cbn [mbind sql_bind] in H; [| discriminate].
  apply int4_Done in Hp, Hc, Ht. subst p' c' total.
  injection H as <- <-. eexists; split; [reflexivity |]. cbn. auto.
Qed.

(** The same as an invariant of the table. *)
Lemma track_ai_usage_invariant (fresh : string) (table table' : list UsageRow)
    (u : string) (pr : option string) (provider_name model_name op : string)
    (p c : Z) (t : option Z) (ok : bool) (msg : option string) (usage_id : string) :
  Forall (fun row => total_tokens row = prompt_tokens row + completion_tokens row) table ->
  track_ai_usage fresh table u pr provider_name model_name op p c t ok msg
    = Done (table', usage_id) ->
  Forall (fun row => total_tokens row = prompt_tokens row + completion_tokens row) table'.
Proof.
  intros Hinv H. unfold track_ai_usage in H.
  sql_step H. sql_step H.
  destruct (int4 p) as [p' |] eqn:Hp; cbn [mbind sql_bind] in H; [| discriminate].
  destruct (int4 c) as [c' |] eqn:Hc; cbn [mbind sql_bind] in H; [| discriminate].
  do 5 sql_step H.
  destruct (int4 (p' + c')) as [total |] eqn:Ht; cbn [mbind sql_bind] in H; [| discriminate].
  apply int4_Done in Ht. subst total. injection H as <- _.
  apply Forall_app; split; [exact Hinv |]. constructor; [reflexivity | constructor].
Qed.

End Usage.

Lemma track_ai_usage_total_witness :
  Sql.track_ai_usage usageId [] analystId None "bedrock"
    "anthropic.claude-3-sonnet-20240229-v1:0" "chat" 1200 300 (Some 950%Z) true None
  = Sql.Done ([sonnetRow], usageId)
  ∧ ∃ row, [sonnetRow] = ([] ++ [row])%list
           ∧ Sql.id row = usageId
           ∧ Sql.prompt_tokens row = 1200%Z
           ∧ Sql.completion_tokens row = 300%Z
           ∧ Sql.total_tokens row = (Sql.prompt_tokens row + Sql.completion_tokens row)%Z.
Proof.
  assert (H : Sql.track_ai_usage usageId [] analystId None "bedrock"
                "anthropic.claude-3-sonnet-20240229-v1:0" "chat" 1200 300 (Some 950%Z)
                true None
              = Sql.Done ([sonnetRow], usageId)) by reflexivity.
  split; [exact H |].
  exact (track_ai_usage_total _ _ _ _ _ _ _ _ _ _ _ _ _ _ H).
Defined.

(** *** [getConfig] and the caller's writes *)

Section ConfigCopy.
Import BedrockObject.

Lemma freshLoc_objects (h : Heap) : objects h !! freshLoc h = None.
Proof.
  apply not_elem_of_dom. intros Hin.
  apply (is_fresh (dom (objects h) ∪ dom (arrays h))).
  apply elem_of_union_l. exact Hin.
Qed.

(** A write to a property of the object at [l] leaves every other object
    and every array as they were. *)
Lemma mutate_own_frame (l : loc) (h : Heap) (m : Mutation) :
  ownProperty m = true ->
  arrays (mutate l h m) = arrays h
  ∧ ∀ l', l' ≠ l -> objects (mutate l h m) !! l' = objects h !! l'.
Proof.
  intros Hown. unfold mutate. rewrite Hown. cbn [arrays objects].
  split; [reflexivity |]. intros l' Hne. apply lookup_alter_ne. congruence.
Qed.

Lemma mutateAll_own_frame (l : loc) (ms : list Mutation) (h : Heap) :
  Forall (fun m => ownProperty m = true) ms ->
  arrays (mutateAll l h ms) = arrays h
  ∧ ∀ l', l' ≠ l -> objects (mutateAll l h ms) !! l' = objects h !! l'.
Proof.
  unfold mutateAll. revert h.
  induction ms as [| m ms IH]; intros h Hown; cbn [foldl]; [auto |].
  apply Forall_cons_1 in Hown as [Hm Hms].
  destruct (mutate_own_frame l h m Hm) as [Harr Hobj].
  destruct (IH (mutate l h m) Hms) as [Harr' Hobj'].
  split; [congruence |]. intros l' Hne. rewrite Hobj', Hobj by exact Hne. reflexivity.
Qed.

(** What the methods of the provider read depends on the object its
    [config] refers to and on the arrays only. *)
Lemma readConfig_ext (h h' : Heap) (l : loc) :
  objects h' !! l = objects h !! l -> arrays h' = arrays h ->
  readConfig h' l = readConfig h l.
Proof. intros Hobj Harr. unfold readConfig. rewrite Hobj, Harr. reflexivity. Qed.

(** C9, amended: [getConfig] returns a new object with the values of the
    provider's configuration, and assigning or deleting properties of
    that object, any number of times, leaves the provider's configuration
    as it was: request building and family classification answer as
    before [getConfig] was called. *)
Theorem getConfig_own_writes_frame
    (h h1 : Heap) (p : BedrockProvider) (l : loc) (ms : list Mutation) :
  getConfig h p = Some (h1, l) ->
  Forall (fun m => ownProperty m = true) ms ->
  l ≠ config p
  ∧ readConfig h1 l = readConfig h (config p)
  ∧ readConfig (mutateAll l h1 ms) (config p) = readConfig h (config p)
  ∧ (∀ prompt, buildRequest (mutateAll l h1 ms) p prompt = buildRequest h p prompt)
  ∧ getModelFamily (mutateAll l h1 ms) p = getModelFamily h p.
Proof.
  unfold getConfig. intros Hget Hown.
  destruct (objects h !! config p) as [o |] eqn:Ho; [| discriminate Hget].
  cbn [mbind option_bind] in Hget. injection Hget as <- <-.
  assert (Hne : freshLoc h ≠ config p).
  { intros Heq. pose proof (freshLoc_objects h) as Hfresh.
    rewrite Heq, Ho in Hfresh. discriminate Hfresh. }
  set (h1 := {| objects := <[freshLoc h := o]> (objects h); arrays := arrays h |}).
  destruct (mutateAll_own_frame (freshLoc h) ms h1 Hown) as [Harr Hobj].
  assert (Hsame : readConfig (mutateAll (freshLoc h) h1 ms) (config p)
                  = readConfig h (config p)).
  { apply readConfig_ext.
    - rewrite Hobj by congruence. subst h1. cbn [objects].
      apply lookup_insert_ne. exact Hne.
    - rewrite Harr. reflexivity. }
  split; [exact Hne |]. split.
  - unfold readConfig. subst h1. cbn [objects arrays].
    rewrite lookup_insert_eq, Ho. reflexivity.
  - split; [exact Hsame |]. split.
    + intros prompt. unfold buildRequest. rewrite Hsame. reflexivity.
    + unfold getModelFamily. rewrite Hsame. reflexivity.
Qed.

End ConfigCopy.

Lemma getConfig_own_writes_frame_witness :
  BedrockObject.getConfig stopHeap stopProvider = Some (stopCopy, 2%nat)
  ∧ BedrockObject.buildRequest
      (BedrockObject.mutateAll 2%nat stopCopy
         [BedrockObject.SetModelId "meta.llama2-13b-chat-v1";
          BedrockObject.SetStopSequences None])
      stopProvider "Hello"
    = BedrockObject.buildRequest stopHeap stopProvider "Hello".
Proof.
  assert (Hget : BedrockObject.getConfig stopHeap stopProvider = Some (stopCopy, 2%nat))
    by (vm_compute; reflexivity).
  split; [exact Hget |].
  assert (Hown : Forall (fun m => BedrockObject.ownProperty m = true)
                   [BedrockObject.SetModelId "meta.llama2-13b-chat-v1";
                    BedrockObject.SetStopSequences None]).
  { repeat constructor. }
  destruct (getConfig_own_writes_frame stopHeap stopCopy stopProvider 2%nat _ Hget Hown)
    as (_ & _ & _ & Hbuild & _).
  exact (Hbuild "Hello").
Defined.

(** C9 as stated fails: the copy is one level deep.  The array of stop
    sequences is shared with the provider, and a [push] through the object
    [getConfig] returned changes the requests the provider builds. *)
Lemma getConfig_shares_stopSequences :
  ¬ (∀ (h h1 : BedrockObject.Heap) (p : BedrockObject.BedrockProvider)
       (l : BedrockObject.loc) (ms : list BedrockObject.Mutation) (prompt : string),
        BedrockObject.getConfig h p = Some (h1, l) ->
        BedrockObject.buildRequest (BedrockObject.mutateAll l h1 ms) p prompt
        = BedrockObject.buildRequest h p prompt).
Proof.
  intros H.
  assert (Hget : BedrockObject.getConfig stopHeap stopProvider = Some (stopCopy, 2%nat))
    by (vm_compute; reflexivity).
  specialize (H stopHeap stopCopy stopProvider 2%nat
                [BedrockObject.StopSequencesPush "Observation:"] "Hello" Hget).
  vm_compute in H. discriminate H.
Qed.

(** *** Provider status and secrets *)

Section ProviderStatus.
Import Bedrock Manager Spec.

Lemma bedrock_testConnection_apart (net : BedrockCall.Transport)
  (converted : JsValue -> bool) (now : string) (c1 c2 : BedrockConfig) :
configsApart c1 c2 ->
BedrockCall.testConnection net converted c1 now
= BedrockCall.testConnection net converted c2 now.
Proof.
destruct c1 as [r1 a1 k1 t1 m1 x1 e1 p1 q1], c2 as [r2 a2 k2 t2 m2 x2 e2 p2 q2].
unfold configsApart. cbn [region accessKeyId secretAccessKey sessionToken modelId
  maxTokens temperature topP stopSequences].
intros (-> & -> & -> & -> & -> & -> & -> & -> & Hk).
destruct Hk as [-> | [Hk1 Hk2]]; [reflexivity |].
unfold BedrockCall.testConnection, BedrockCall.generateResponse, BedrockCall.callBedrock,
  BedrockCall.buildAuthHeaders.
cbn [accessKeyId secretAccessKey]. rewrite Hk1, Hk2. reflexivity.
Qed.

Lemma testConnection_apart (E : Env) (t : nat) (i1 i2 : ProviderInstance) :
instancesApart i1 i2 -> testConnection E t i1 = testConnection E t i2.
Proof.
destruct i1 as [c1 | a1 b1], i2 as [c2 | a2 b2]; cbn [instancesApart testConnection];
  intros H; try discriminate H; try reflexivity.
apply bedrock_testConnection_apart. exact H.
Qed.

Lemma maskConfig_apart (c1 c2 : gmap string JsValue) :
secretsApart c1 c2 -> maskConfig (Some c1) = maskConfig (Some c2).
Proof.
intros (Hother & Hapi & Hsecret). unfold maskConfig, field. cbn [default].
apply map_eq. intros k.
destruct (decide (k = "secretAccessKey")) as [-> | Hk1].
{ rewrite !lookup_insert_eq. f_equal.
  destruct Hsecret as [-> | [-> ->]]; reflexivity. }
rewrite !(lookup_insert_ne _ "secretAccessKey") by congruence.
destruct (decide (k = "apiKey")) as [-> | Hk2].
{ rewrite !lookup_insert_eq. f_equal.
  destruct Hapi as [-> | [-> ->]]; reflexivity. }
rewrite !(lookup_insert_ne _ "apiKey") by congruence.
apply Hother; assumption.
Qed.

Lemma statusOf_apart (E : Env) (t : nat) (s1 s2 : State) (p : AIProviderType)
  (i1 i2 : ProviderInstance) :
option_Forall2 secretsApart (configs s1 !! p) (configs s2 !! p) ->
instancesApart i1 i2 ->
statusOf E s1 t p i1 = statusOf E s2 t p i2.
Proof.
intros Hc Hi. unfold statusOf.
rewrite (testConnection_apart E t i1 i2 Hi).
destruct Hc as [c1 c2 Hc |]; [| reflexivity].
rewrite (maskConfig_apart c1 c2 Hc).
destruct Hc as (Hother & _). unfold field.
rewrite (Hother "modelId") by discriminate. reflexivity.
Qed.

(** C10: two states of the manager that differ only in the value of an
  [apiKey] or [secretAccessKey] set in both yield the same status: the
  [config] of every entry is the same, the masked constant standing for
  the secret, and so are the other fields of the entry. *)
Theorem getProviderStatus_hides_secrets (E : Env) (t : nat) (s1 s2 : State) :
statesApart s1 s2 ->
getProviderStatus E s1 t = getProviderStatus E s2 t
∧ ∀ p st, getProviderStatus E s1 t !! p = Some st ->
    ∀ k, (k = "apiKey" ∨ k = "secretAccessKey") ->
         isTruthy (field (configs s1 !! p) k) = true ->
         st_config st !! k = Some masked.
Proof.
intros (_ & _ & Hprov & Hconf). split.
- apply map_eq. intros p. unfold getProviderStatus. rewrite !map_lookup_imap.
  destruct (Hprov p) as [i1 i2 Hi |]; cbn [mbind option_bind]; [| reflexivity].
  f_equal. apply statusOf_apart; [apply Hconf | exact Hi].
- intros p st Hst k Hk Hset. unfold getProviderStatus in Hst.
  rewrite map_lookup_imap in Hst.
  destruct (providers s1 !! p) as [i |]; cbn [mbind option_bind] in Hst; [| discriminate].
  injection Hst as <-. cbn [statusOf st_config]. unfold maskConfig.
  destruct Hk as [-> | ->].
  + rewrite lookup_insert_ne by discriminate. rewrite lookup_insert_eq, Hset. reflexivity.
  + rewrite lookup_insert_eq, Hset. reflexivity.
Qed.

End ProviderStatus.

(** *** Failover *)

Section FailoverProperties.
Import Manager.

Variable E : Env.
Variable s : State.
Variable prompt : string.

Lemma standardizeResponse_provider (now : string) (response : JsValue)
  (p : AIProviderType) (r : AIResponse) :
standardizeResponse now response p = Ok r -> provider r = p.
Proof.
unfold standardizeResponse. intros H.
destruct (getProp response "completion") as [c |]; cbn [mbind result_bind] in H;
  [| discriminate].
destruct (if isTruthy c then _ else _) as [c' |]; cbn [mbind result_bind] in H;
  [| discriminate].
destruct (getProp response "usage"); cbn [mbind result_bind] in H; [| discriminate].
destruct (getProp response "model"); cbn [mbind result_bind] in H; [| discriminate].
destruct (getProp response "timestamp"); cbn [mbind result_bind] in H; [| discriminate].
destruct (getProp response "stop_reason"); cbn [mbind result_bind] in H; [| discriminate].
injection H as <-. reflexivity.
Qed.

(** A response is tagged with the provider that was attempted. *)
Lemma attempt_provider (t : nat) (p : AIProviderType) (r : AIResponse) :
attempt E s t p prompt = Ok r -> provider r = p.
Proof.
unfold attempt. destruct (providers s !! p); [| discriminate].
destruct (callProvider E s t p prompt); cbn [mbind result_bind]; [| discriminate].
apply standardizeResponse_provider.
Qed.

(** The first provider of the chain takes over: when the primary provider
  fails and the first provider of the fallback chain succeeds,
  [generateResponse] returns one response, tagged with that fallback
  provider, after exactly these two attempts in this order.  The response
  is all it returns: no usage record is produced. *)
Theorem generateResponse_first_fallback
  (depth : nat) (useProvider : option AIProviderType)
  (fallbackProvider : AIProviderType) (rest : list AIProviderType)
  (error : JsError) (response : AIResponse) :
fallbackProviders s = fallbackProvider :: rest ->
attempt E s 0 (default (currentProvider s) useProvider) prompt = Throw error ->
attempt E s 1 fallbackProvider prompt = Ok response ->
generateResponse E s prompt (S (S depth)) useProvider
= ([mkAttempt (default (currentProvider s) useProvider) (Some error);
    mkAttempt fallbackProvider None],
   Returned response)
∧ provider response = fallbackProvider.
Proof.
intros Hchain Hprimary Hfallback. split; [| exact (attempt_provider _ _ _ Hfallback)].
unfold generateResponse. cbn [generateResponseAt List.length].
rewrite Hprimary, Hchain. cbn [tryFallbackLoop generateResponseAt app List.length].
rewrite Hfallback. reflexivity.
Qed.

(** With no fallback provider configured, a failing primary provider
  makes [generateResponse] throw that provider's own error, after this
  one attempt; the error is thrown as it is, with no list of attempts
  around it. *)
Theorem generateResponse_no_fallback_throws
  (depth : nat) (useProvider : option AIProviderType) (error : JsError) :
fallbackProviders s = [] ->
attempt E s 0 (default (currentProvider s) useProvider) prompt = Throw error ->
generateResponse E s prompt (S depth) useProvider
= ([mkAttempt (default (currentProvider s) useProvider) (Some error)], Thrown error).
Proof.
intros Hchain Hprimary. unfold generateResponse. cbn [generateResponseAt List.length].
rewrite Hprimary, Hchain. reflexivity.
Qed.

(** With a fallback chain configured, no call of [generateResponse] ends
  by throwing: a failed attempt always goes on to the chain, and the
  loop over the chain throws only if one of these calls does. *)
Lemma generateResponseAt_chain_never_throws (depth : nat) :
fallbackProviders s ≠ [] ->
∀ p log log' e, generateResponseAt E s prompt depth p log ≠ (log', Thrown e).
Proof.
intros Hchain. induction depth as [| depth IH]; intros p log log' e;
  cbn [generateResponseAt]; [discriminate |].
destruct (attempt E s (List.length log) p prompt) as [r | error]; [discriminate |].
destruct (fallbackProviders s) as [| fb rest]; [congruence |].
cbn [tryFallbackLoop].
destruct (generateResponseAt E s prompt depth fb _) as [log1 [r | e1 |]] eqn:Hfb;
  try discriminate.
exfalso. exact (IH _ _ _ _ Hfb).
Qed.

(** While the first provider of the chain keeps failing, every call on it
  goes back to the head of the chain: the attempts on it are as many as
  the depth allows, and no later provider of the chain is reached. *)
Lemma generateResponseAt_retries_head
  (fallbackProvider : AIProviderType) (rest : list AIProviderType) :
fallbackProviders s = fallbackProvider :: rest ->
(∀ t, ∃ error, attempt E s t fallbackProvider prompt = Throw error) ->
∀ depth log, ∃ log',
  generateResponseAt E s prompt depth fallbackProvider log = (log', Unfinished)
  ∧ map att_provider log' = (map att_provider log ++ repeat fallbackProvider depth)%list.
Proof.
intros Hchain Hfails. induction depth as [| depth IH]; intros log.
- exists log. cbn [generateResponseAt repeat]. rewrite app_nil_r. auto.
- cbn [generateResponseAt].
  destruct (Hfails (List.length log)) as [error ->]. rewrite Hchain.
  cbn [tryFallbackLoop].
  destruct (IH (log ++ [mkAttempt fallbackProvider (Some error)])%list)
    as (log' & -> & Hlog).
  exists log'. split; [reflexivity |].
  rewrite Hlog, map_app, <- app_assoc. reflexivity.
Qed.

Lemma generateResponse_retries_head
  (useProvider : option AIProviderType)
  (fallbackProvider : AIProviderType) (rest : list AIProviderType) :
fallbackProviders s = fallbackProvider :: rest ->
(∃ error, attempt E s 0 (default (currentProvider s) useProvider) prompt = Throw error) ->
(∀ t, ∃ error, attempt E s t fallbackProvider prompt = Throw error) ->
∀ depth, ∃ log,
  generateResponse E s prompt (S depth) useProvider = (log, Unfinished)
  ∧ map att_provider log
    = default (currentProvider s) useProvider :: repeat fallbackProvider depth.
Proof.
intros Hchain [error Hprimary] Hfails depth.
unfold generateResponse. cbn [generateResponseAt List.length].
rewrite Hprimary, Hchain. cbn [tryFallbackLoop app].
destruct (generateResponseAt_retries_head fallbackProvider rest Hchain Hfails depth
            [mkAttempt (default (currentProvider s) useProvider) (Some error)])
  as (log & -> & Hlog).
exists log. split; [reflexivity | exact Hlog].
Qed.

End FailoverProperties.

Lemma generateResponse_first_fallback_witness :
  Manager.fallbackProviders openaiChain = [Manager.openai]
  ∧ Manager.attempt downEnv openaiChain 0 Manager.bedrock "Hello" = Throw bedrockDown
  ∧ Manager.attempt downEnv openaiChain 1 Manager.openai "Hello" = Ok openaiResponse
  ∧ Manager.generateResponse downEnv openaiChain "Hello" 2 None
    = ([Manager.mkAttempt Manager.bedrock (Some bedrockDown);
        Manager.mkAttempt Manager.openai None],
       Manager.Returned openaiResponse)
  ∧ Manager.provider openaiResponse = Manager.openai.
Proof.
  assert (Hchain : Manager.fallbackProviders openaiChain = [Manager.openai])
    by (vm_compute; reflexivity).
  assert (Hprimary : Manager.attempt downEnv openaiChain 0
                       (default (Manager.currentProvider openaiChain) None) "Hello"
                     = Throw bedrockDown) by (vm_compute; reflexivity).
  assert (Hfallback : Manager.attempt downEnv openaiChain 1 Manager.openai "Hello"
                      = Ok openaiResponse) by (vm_compute; reflexivity).
  split; [exact Hchain |]. split; [exact Hprimary |]. split; [exact Hfallback |].
  exact (generateResponse_first_fallback downEnv openaiChain "Hello" 0 None
           Manager.openai [] bedrockDown openaiResponse Hchain Hprimary Hfallback).
Defined.

Lemma chainState_chain :
  Manager.fallbackProviders chainState = [Manager.bedrock; Manager.openai].
Proof. vm_compute. reflexivity. Qed.

Lemma downEnv_bedrock_fails (s : Manager.State) (t : nat) :
  Manager.providers s !! Manager.bedrock = Some (Manager.BedrockInstance sonnetConfig) ->
  Manager.attempt downEnv s t Manager.bedrock "Hello" = Throw bedrockDown.
Proof.
  intros H. unfold Manager.attempt, Manager.callProvider. rewrite H. reflexivity.
Qed.

Lemma unregistered_fails (E : Manager.Env) (s : Manager.State) (t : nat)
    (p : Manager.AIProviderType) (prompt : string) :
  Manager.providers s !! p = None ->
  ∃ error, Manager.attempt E s t p prompt = Throw error.
Proof. intros H. unfold Manager.attempt. rewrite H. eauto. Qed.

(** C1 at a failing input: the provider asked for ([local], not registered)
    and the first fallback provider ([bedrock], unreachable) fail, and the
    second fallback provider ([openai]) is ready to answer at any time.
    No call of [generateResponse] returns a response, whatever depth it is
    given: the second fallback provider is never reached. *)
Theorem generateResponse_second_fallback_unreached :
  Manager.fallbackProviders chainState = [Manager.bedrock; Manager.openai]
  ∧ (∀ t, ∃ e, Manager.attempt downEnv chainState t Manager.local "Hello" = Throw e)
  ∧ (∀ t, ∃ e, Manager.attempt downEnv chainState t Manager.bedrock "Hello" = Throw e)
  ∧ (∀ t, ∃ r, Manager.attempt downEnv chainState t Manager.openai "Hello" = Ok r)
  ∧ ¬ (∃ depth log r,
         Manager.generateResponse downEnv chainState "Hello" depth (Some Manager.local)
         = (log, Manager.Returned r)).
Proof.
  assert (Hlocal : ∀ t, ∃ e,
            Manager.attempt downEnv chainState t Manager.local "Hello" = Throw e).
  { intros t. apply unregistered_fails. vm_compute. reflexivity. }
  assert (Hbedrock : ∀ t, ∃ e,
            Manager.attempt downEnv chainState t Manager.bedrock "Hello" = Throw e).
  { intros t. eexists. apply downEnv_bedrock_fails. vm_compute. reflexivity. }
  split; [exact chainState_chain |]. split; [exact Hlocal |]. split; [exact Hbedrock |].
  split.
  - intros t. eexists. vm_compute. reflexivity.
  - intros (depth & log & r & H). destruct depth as [| depth]; [discriminate H |].
    destruct (generateResponse_retries_head downEnv chainState "Hello" (Some Manager.local)
                Manager.bedrock [Manager.openai] chainState_chain (Hlocal 0%nat) Hbedrock
                depth) as (log' & Hrun & _).
    rewrite Hrun in H. discriminate H.
Qed.

Lemma generateResponse_no_fallback_throws_witness :
  Manager.fallbackProviders baseState = []
  ∧ Manager.attempt downEnv baseState 0 Manager.bedrock "Hello" = Throw bedrockDown
  ∧ Manager.generateResponse downEnv baseState "Hello" 1 None
    = ([Manager.mkAttempt Manager.bedrock (Some bedrockDown)], Manager.Thrown bedrockDown).
Proof.
  assert (Hchain : Manager.fallbackProviders baseState = []) by reflexivity.
  assert (Hprimary : Manager.attempt downEnv baseState 0
                       (default (Manager.currentProvider baseState) None) "Hello"
                     = Throw bedrockDown) by (vm_compute; reflexivity).
  split; [exact Hchain |]. split; [exact Hprimary |].
  exact (generateResponse_no_fallback_throws downEnv baseState "Hello" 0 None bedrockDown
           Hchain Hprimary).
Defined.

(** C2 at a failing input: the provider asked for ([local], not registered)
    and the only provider of the chain ([bedrock], unreachable) both fail.
    [generateResponse] throws no error at all, with two attempts listed or
    otherwise, whatever depth it is given. *)
Theorem generateResponse_all_failed_no_error :
  Manager.fallbackProviders bedrockChain = [Manager.bedrock]
  ∧ (∀ t, ∃ e, Manager.attempt downEnv bedrockChain t Manager.local "Hello" = Throw e)
  ∧ (∀ t, ∃ e, Manager.attempt downEnv bedrockChain t Manager.bedrock "Hello" = Throw e)
  ∧ ¬ (∃ depth log e,
         Manager.generateResponse downEnv bedrockChain "Hello" depth (Some Manager.local)
         = (log, Manager.Thrown e)).
Proof.
  assert (Hchain : Manager.fallbackProviders bedrockChain = [Manager.bedrock])
    by (vm_compute; reflexivity).
  split; [exact Hchain |]. split.
  { intros t. apply unregistered_fails. vm_compute. reflexivity. }
  split.
  { intros t. eexists. apply downEnv_bedrock_fails. vm_compute. reflexivity. }
  intros (depth & log & e & H). unfold Manager.generateResponse in H.
  assert (Hne : Manager.fallbackProviders bedrockChain ≠ []) by (rewrite Hchain; discriminate).
  exact (generateResponseAt_chain_never_throws downEnv bedrockChain "Hello" depth Hne
           _ _ _ _ H).
Qed.

(** C3 at a failing input: [local] is asked for and is not registered, the
    chain is [bedrock; openai], and the Bedrock endpoint cannot be reached.
    However deep the calls may nest, the call does not finish, [bedrock] is
    attempted again at every level, and [openai] is never attempted. *)
Theorem generateResponse_retries_bedrock (depth : nat) :
  ∃ log,
    Manager.generateResponse downEnv chainState "Hello" (S depth) (Some Manager.local)
    = (log, Manager.Unfinished)
    ∧ map Manager.att_provider log = Manager.local :: repeat Manager.bedrock depth.
Proof.
  apply (generateResponse_retries_head downEnv chainState "Hello" (Some Manager.local)
           Manager.bedrock [Manager.openai] chainState_chain).
  - apply unregistered_fails. vm_compute. reflexivity.
  - intros t. eexists. apply downEnv_bedrock_fails. vm_compute. reflexivity.
Qed.

(** Six attempts where the chain allows three, five of them on [bedrock]. *)
Lemma generateResponse_six_attempts :
  map Manager.att_provider
    (fst (Manager.generateResponse downEnv chainState "Hello" 6 (Some Manager.local)))
  = [Manager.local; Manager.bedrock; Manager.bedrock; Manager.bedrock; Manager.bedrock;
     Manager.bedrock].
Proof. vm_compute. reflexivity. Qed.

Lemma keyedStates_apart :
  Spec.statesApart (keyedState "first-secret") (keyedState "second-secret").
Proof.
  split; [reflexivity |]. split; [reflexivity |]. split.
  - intros p. unfold keyedState. cbn [Manager.providers].
    destruct (Manager.AIProviderType_eq_dec p Manager.bedrock) as [-> | Hp].
    + rewrite !lookup_singleton_eq. constructor. cbn [Spec.instancesApart].
      unfold Spec.configsApart. repeat (split; [reflexivity |]).
      right. split; reflexivity.
    + rewrite !lookup_singleton_ne by congruence. constructor.
  - intros p. unfold keyedState. cbn [Manager.configs].
    destruct (Manager.AIProviderType_eq_dec p Manager.bedrock) as [-> | Hp].
    + rewrite !lookup_singleton_eq. constructor. unfold Spec.secretsApart, keyedObject.
      split; [| split].
      * intros k _ Hk. rewrite !(lookup_insert_ne _ "secretAccessKey") by congruence.
        reflexivity.
      * left. reflexivity.
      * right. split; reflexivity.
    + rewrite !lookup_singleton_ne by congruence. constructor.
Qed.

Lemma getProviderStatus_hides_secrets_witness :
  Spec.statesApart (keyedState "first-secret") (keyedState "second-secret")
  ∧ Manager.getProviderStatus downEnv (keyedState "first-secret") 0
    = Manager.getProviderStatus downEnv (keyedState "second-secret") 0.
Proof.
  split; [exact keyedStates_apart |].
  exact (proj1 (getProviderStatus_hides_secrets downEnv 0 _ _ keyedStates_apart)).
Defined.

(** *** Substrings *)

Section Substrings.

Lemma prefix_app_l (t s u : string) :
  String.prefix t s = true -> String.prefix t (s ++ u) = true.
Proof.
  revert s. induction t as [| a t IH]; intros s H; [destruct (s ++ u); reflexivity |].
  destruct s as [| b s]; [discriminate H |]. simpl in H |- *.
  destruct (Ascii.ascii_dec a b); [apply IH; exact H | discriminate H].
Qed.

Lemma prefix_refl (s : string) : String.prefix s s = true.
Proof.
  induction s as [| a s IH]; [reflexivity |]. cbn [String.prefix].
  destruct (Ascii.ascii_dec a a); [exact IH | congruence].
Qed.


Lemma append_assoc (a b c : string) : (a ++ b) ++ c = a ++ b ++ c.
Proof.
  induction a as [| x a IH]; [reflexivity |].
  change (String x ((a ++ b) ++ c) = String x (a ++ b ++ c)). f_equal. exact IH.
Qed.

Lemma includes_unfold (s t : string) :
  includes s t =
  (String.prefix t s || match s with EmptyString => false | String _ r => includes r t end).
Proof. destruct s; reflexivity. Qed.

Lemma includes_refl (s : string) : includes s s = true.
Proof. rewrite includes_unfold, prefix_refl. reflexivity. Qed.

Lemma includes_app_l (s u t : string) :
  includes s t = true -> includes (s ++ u) t = true.
Proof.
  induction s as [| a s IH]; intros H.
  - cbn [includes] in H. rewrite orb_false_r in H.
    rewrite includes_unfold. rewrite (prefix_app_l t "" u H). reflexivity.
  - cbn [includes] in H. apply orb_prop in H as [H | H].
    + rewrite includes_unfold, (prefix_app_l _ _ u H). reflexivity.
    + simpl. rewrite (IH H). apply orb_true_r.
Qed.

Lemma includes_app_r (s u t : string) :
  includes s t = true -> includes (u ++ s) t = true.
Proof.
  intros H. induction u as [| a u IH]; [exact H |].
  simpl. rewrite IH. apply orb_true_r.
Qed.



(** An element of a joined list is a substring of the result. *)
Lemma includes_concat (sep x : string) (l : list string) :
  In x l -> includes (String.concat sep l) x = true.
Proof.
  induction l as [| y l IH]; intros Hin; [destruct Hin |].
  destruct l as [| z l].
  - destruct Hin as [-> | []]. apply includes_refl.
  - change (String.concat sep (y :: z :: l)) with (y ++ sep ++ String.concat sep (z :: l)).
    destruct Hin as [-> | Hin].
    + apply includes_app_l, includes_refl.
    + apply includes_app_r, includes_app_r, IH, Hin.
Qed.

End Substrings.

(** Finds a piece among the parts of a concatenation. *)
Ltac find_piece :=
  first
    [ apply includes_refl
    | assumption
    | apply includes_app_l; apply includes_refl
    | apply includes_app_r; find_piece ].

(** The same for a piece made of two neighbouring parts. *)
Ltac find_pair :=
  first
    [ rewrite <- append_assoc; apply includes_app_l; apply includes_refl
    | apply includes_app_r; find_pair ].

(** *** Start-up of the Bedrock provider *)

Section Startup.
Import Bedrock BedrockOps.

Lemma arrayIncludes_In (l : list string) (x : string) :
  arrayIncludes l x = true ↔ In x l.
Proof.
  unfold arrayIncludes. rewrite existsb_exists. split.
  - intros (y & Hin & Heq). apply String.eqb_eq in Heq. subst y. exact Hin.
  - intros Hin. exists x. split; [exact Hin | apply String.eqb_refl].
Qed.

Lemma initialize_Ok_iff (config : BedrockConfig) :
  initialize config = Ok tt ↔ region config ≠ "" ∧ In (modelId config) listAvailableModels.
Proof.
  unfold initialize, validateModel.
  destruct (String.eqb (region config) "") eqn:Hr.
  - apply String.eqb_eq in Hr. split; [discriminate | intros [H _]; contradiction].
  - apply String.eqb_neq in Hr.
    destruct (String.eqb (modelId config) "") eqn:Hm.
    + apply String.eqb_eq in Hm. split; [discriminate |]. intros [_ Hin].
      rewrite Hm in Hin. vm_compute in Hin. intuition discriminate.
    + destruct (arrayIncludes listAvailableModels (modelId config)) eqn:Hin.
      * apply arrayIncludes_In in Hin. split; auto.
      * split; [discriminate |]. intros [_ Hin'].
        apply arrayIncludes_In in Hin'. congruence.
Qed.

(** [initialize] succeeds exactly on a configuration with a region and
    with a model of the list of available models; the region itself is
    not checked against anything. *)
Theorem initialize_accepts (config : BedrockConfig) :
  initialize config = Ok tt ↔ region config ≠ "" ∧ In (modelId config) listAvailableModels.
Proof. exact (initialize_Ok_iff config). Qed.

Lemma getModelFamily_modelId (c1 c2 : BedrockConfig) :
  modelId c1 = modelId c2 -> getModelFamily c1 = getModelFamily c2.
Proof. unfold getModelFamily. intros ->. reflexivity. Qed.

(** Of the models [initialize] accepts none is classified [ai21]: the
    identifiers of the two AI21 models do not contain "jurassic", so these
    models are handled as [generic]. *)
Theorem initialized_family_never_ai21 (config : BedrockConfig) :
  initialize config = Ok tt ->
  getModelFamily config ≠ FamAi21
  ∧ (includes (modelId config) "ai21" = true -> getModelFamily config = FamGeneric).
Proof.
  intros H. apply initialize_Ok_iff in H as [_ Hin].
  unfold listAvailableModels in Hin. cbn [In] in Hin.
  repeat (destruct Hin as [Hin | Hin];
          [ rewrite (getModelFamily_modelId config (withModel (modelId config)) eq_refl);
            rewrite <- Hin; vm_compute; split; [discriminate | intros; first [reflexivity | discriminate]]
          | ]).
  destruct Hin.
Qed.

End Startup.

Lemma initialized_family_never_ai21_witness :
  BedrockOps.initialize (withModel "ai21.j2-ultra-v1") = Ok tt
  ∧ Bedrock.getModelFamily (withModel "ai21.j2-ultra-v1") ≠ Bedrock.FamAi21
  ∧ (includes (Bedrock.modelId (withModel "ai21.j2-ultra-v1")) "ai21" = true ->
     Bedrock.getModelFamily (withModel "ai21.j2-ultra-v1") = Bedrock.FamGeneric).
Proof.
  assert (H : BedrockOps.initialize (withModel "ai21.j2-ultra-v1") = Ok tt)
    by (vm_compute; reflexivity).
  split; [exact H |].
  exact (initialized_family_never_ai21 (withModel "ai21.j2-ultra-v1") H).
Defined.

(** *** Requests and their bodies *)

Section Requests.
Import Bedrock BedrockOps.

Lemma topPOrDefault_nonzero (config : BedrockConfig) :
  Qnum (topPOrDefault config) ≠ 0%Z
  ∧ (topP config = Some (topPOrDefault config) ∨ topPOrDefault config = (9 # 10)%Q).
Proof.
  unfold topPOrDefault. destruct (topP config) as [q |]; [| split; [discriminate | auto]].
  destruct (Qnum q =? 0)%Z eqn:Hq; [split; [discriminate | auto] |].
  apply Z.eqb_neq in Hq. auto.
Qed.

Lemma buildRequest_includes_prompt (config : BedrockConfig) (prompt : string) :
  includes (req_prompt (buildRequest config prompt)) prompt = true.
Proof.
  unfold buildRequest.
  destruct (getModelFamily config); cbn [req_prompt buildClaudeRequest buildLlamaRequest
    buildTitanRequest buildGenericRequest]; find_piece.
Qed.

(** Whatever the family, the request [buildRequest] builds carries the
    model, the token limit and the temperature of the configuration, a
    prompt that contains the caller's prompt, and a top-p that is never
    zero or missing: 0.9 stands in for a top-p that is absent or 0. *)
Theorem buildRequest_carries_config (config : BedrockConfig) (prompt : string) :
  let request := buildRequest config prompt in
  req_modelId request = modelId config
  ∧ req_maxTokens request = maxTokens config
  ∧ req_temperature request = temperature config
  ∧ req_topP request = Some (topPOrDefault config)
  ∧ Qnum (topPOrDefault config) ≠ 0%Z
  ∧ (topP config = Some (topPOrDefault config) ∨ topPOrDefault config = (9 # 10)%Q)
  ∧ includes (req_prompt request) prompt = true.
Proof.
  cbn zeta. destruct (topPOrDefault_nonzero config) as [Hnz Hsrc].
  pose proof (buildRequest_includes_prompt config prompt) as Hinc.
  unfold buildRequest in *.
  destruct (getModelFamily config); repeat split; auto.
Qed.

(** The stop sequences of the configuration reach the body sent to the
    endpoint for the claude family (with the next "Human:" turn as
    default) and for the titan family (with the empty list as default);
    for every other family the body has no stop sequences, configured or
    not. *)
Theorem formatRequestBody_stop_sequences (config : BedrockConfig) (prompt : string) :
  let body := formatRequestBody config (buildRequest config prompt) in
  match getModelFamily config with
  | FamClaude =>
      getProp body "stop_sequences"
      = Ok (JArr (JStr <$> default [nl ++ nl ++ "Human:"] (stopSequences config)))
  | FamTitan =>
      (generation ← getProp body "textGenerationConfig"; getProp generation "stopSequences")
      = Ok (JArr (JStr <$> default [] (stopSequences config)))
  | _ =>
      getProp body "stop_sequences" = Ok JUndefined
      ∧ getProp body "stopSequences" = Ok JUndefined
      ∧ getProp body "textGenerationConfig" = Ok JUndefined
  end.
Proof.
  cbn zeta. unfold formatRequestBody, buildRequest.
  destruct (getModelFamily config); cbn [buildClaudeRequest buildLlamaRequest
    buildTitanRequest buildGenericRequest req_stopSequences optStrings];
    try (destruct (stopSequences config); reflexivity); repeat split.
Qed.

End Requests.

(** *** Responses: what normalization keeps and what it drops *)

Ltac step_result H :=
  match type of H with
  | context [mbind _ ?c] =>
      let x := fresh "x" in
      let Hx := fresh "Hx" in
      destruct c as [x |] eqn:Hx; cbn [mbind result_bind] in H; [| discriminate H]
  end.

Section ResponseShape.
Import Bedrock Manager Spec.

(** The response [standardizeResponse] builds, whatever it is given: the
    model is never empty or missing ("unknown" stands in), the content is a
    truthy value or the empty string and so never [undefined] or [null],
    the provider is the one named, and the response it was built from is
    kept whole. *)
Theorem standardizeResponse_shape (now : string) (response : JsValue)
    (p : AIProviderType) (r : AIResponse) :
  standardizeResponse now response p = Ok r ->
  isTruthy (model r) = true
  ∧ (isTruthy (content r) = true ∨ content r = JStr "")
  ∧ provider r = p
  ∧ originalResponse r = response
  ∧ getProp response "usage" = Ok (usage r)
  ∧ getProp response "stop_reason" = Ok (stopReason r).
Proof.
  unfold standardizeResponse. intros H.
  destruct (getProp response "completion") as [c |] eqn:Hc; cbn [mbind result_bind] in H;
    [| discriminate H].
  destruct (if isTruthy c then _ else _) as [c' |] eqn:Hc'; cbn [mbind result_bind] in H;
    [| discriminate H].
  destruct (getProp response "usage") as [u |]; cbn [mbind result_bind] in H;
    [| discriminate H].
  destruct (getProp response "model") as [m |]; cbn [mbind result_bind] in H;
    [| discriminate H].
  destruct (getProp response "timestamp") as [ts |]; cbn [mbind result_bind] in H;
    [| discriminate H].
  destruct (getProp response "stop_reason") as [sr |]; cbn [mbind result_bind] in H;
    [| discriminate H].
  injection H as <-. cbn [model content provider originalResponse usage stopReason].
  split.
  { unfold jsOr. destruct (isTruthy m) eqn:Hm; [exact Hm | reflexivity]. }
  split; [| auto].
  destruct (isTruthy c) eqn:Htc.
  { injection Hc' as <-. auto. }
  destruct (getProp response "content") as [c2 |]; cbn [mbind result_bind] in Hc';
    [| discriminate Hc'].
  destruct (isTruthy c2) eqn:Htc2.
  { injection Hc' as <-. auto. }
  destruct (getProp response "text") as [c3 |]; cbn [mbind result_bind] in Hc';
    [| discriminate Hc'].
  injection Hc' as <-. unfold jsOr. destruct (isTruthy c3) eqn:Htc3; auto.
Qed.

(** Token usage survives normalization for the claude family only, and
    then as the wire response gave it, property names included; for every
    other family the usage of the result is [undefined] even when the wire
    response reports one. *)
Theorem normalize_usage (config : BedrockConfig) (now : string) (wire : JsValue)
    (r : AIResponse) :
  normalize config now wire = Ok r ->
  match getModelFamily config with
  | FamClaude => getProp wire "usage" = Ok (usage r)
  | _ => usage r = JUndefined
  end.
Proof.
  unfold normalize. intros H. step_result H.
  unfold parseResponse in Hx.
  destruct (getModelFamily config); repeat step_result Hx; injection Hx as <-;
    rewrite standardizeResponse_object in H; injection H as <-;
    first [reflexivity | assumption].
Qed.


End ResponseShape.

(** *** Prompts *)

Section Prompts.
Import Bedrock BedrockOps.





(** The compliance template prints the framework a second time, without a
    fallback: when no framework is given the prompt asks for "compliance
    with undefined requirements", whatever the document. *)
Theorem buildAnalysisPrompt_compliance_without_framework (documentContent : string) :
  includes (buildAnalysisPrompt documentContent "compliance" None)
    "Framework: General Compliance" = true
  ∧ includes (buildAnalysisPrompt documentContent "compliance" None)
      "Analyze this document for compliance with undefined requirements." = true.
Proof.
  unfold buildAnalysisPrompt. cbn [String.eqb Ascii.eqb Bool.eqb andb orElse show].
  split; do 6 apply includes_app_r; vm_compute; reflexivity.
Qed.

(** Each requirement is printed on a line of its own with its title,
    status, priority and description, and the document and the framework
    are in the prompt. *)
Theorem buildGapAnalysisPrompt_parts (requirements : list Requirement)
    (documentContent framework : string) :
  (∀ req, In req requirements ->
     includes (buildGapAnalysisPrompt requirements documentContent framework)
       (requirementLine req) = true)
  ∧ includes (buildGapAnalysisPrompt requirements documentContent framework)
      documentContent = true
  ∧ includes (buildGapAnalysisPrompt requirements documentContent framework)
      framework = true.
Proof.
  unfold buildGapAnalysisPrompt. cbn zeta. split; [| split; find_piece].
  intros req Hin.
  assert (Hline : includes (String.concat nl (List.map requirementLine requirements))
                    (requirementLine req) = true).
  { apply includes_concat. apply in_map. exact Hin. }
  do 7 apply includes_app_r. apply includes_app_l. exact Hline.
Qed.

(** The chat prompt contains the question, every document of the context
    and every turn of the history as "role: content". *)
Theorem buildChatPrompt_parts (message : string) (documentContext : list string)
    (conversationHistory : list Turn) (framework : option string) :
  includes (buildChatPrompt message documentContext conversationHistory framework)
    ("User Question: " ++ message) = true
  ∧ (∀ doc, In doc documentContext ->
       includes (buildChatPrompt message documentContext conversationHistory framework)
         doc = true)
  ∧ (∀ msg, In msg conversationHistory ->
       includes (buildChatPrompt message documentContext conversationHistory framework)
         (role msg ++ ": " ++ turn_content msg) = true).
Proof.
  unfold buildChatPrompt. cbn zeta. split; [| split].
  - find_pair.
  - intros doc Hin. destruct documentContext as [| d ds]; [destruct Hin |].
    do 3 apply includes_app_r. apply includes_app_l.
    do 3 apply includes_app_r. apply includes_concat. exact Hin.
  - intros msg Hin. destruct conversationHistory as [| m ms]; [destruct Hin |].
    do 4 apply includes_app_r. apply includes_app_l.
    do 3 apply includes_app_r. apply includes_concat.
    apply (in_map (fun msg => role msg ++ ": " ++ turn_content msg)). exact Hin.
Qed.


End Prompts.

(** *** Failover: what every run does *)

Section FailoverRuns.
Import Manager.

Variable E : Env.
Variable s : State.
Variable prompt : string.

(** The only error [generateResponse] ever throws is the error of the
    provider it was asked for, and only when no fallback provider is
    configured: with a chain, the error "All providers failed, including
    fallbacks" is never reached, at any depth of calls. *)
Theorem generateResponse_throws_only_without_chain
    (depth : nat) (useProvider : option AIProviderType) (log : list Attempt) (e : JsError) :
  generateResponse E s prompt depth useProvider = (log, Thrown e) ->
  fallbackProviders s = []
  ∧ log = [mkAttempt (default (currentProvider s) useProvider) (Some e)]
  ∧ attempt E s 0 (default (currentProvider s) useProvider) prompt = Throw e.
Proof.
  unfold generateResponse. intros H.
  destruct (fallbackProviders s) as [| fb rest] eqn:Hchain.
  - destruct depth as [| depth]; [discriminate H |].
    cbn [generateResponseAt List.length] in H.
    destruct (attempt E s 0 _ prompt) as [r | error]; [discriminate H |].
    rewrite Hchain in H. injection H as <- <-. auto.
  - exfalso.
    refine (generateResponseAt_chain_never_throws E s prompt depth _ _ _ _ _ H).
    rewrite Hchain. discriminate.
Qed.

Lemma take_repeat {A} (x : A) (n : nat) : take n (x :: repeat x n) = repeat x n.
Proof. induction n as [| n IH]; [reflexivity |]. cbn [repeat take]. rewrite IH. reflexivity. Qed.

Lemma generateResponseAt_head_only
    (fallbackProvider : AIProviderType) (rest : list AIProviderType) :
  fallbackProviders s = fallbackProvider :: rest ->
  ∀ depth p log log' outcome,
    generateResponseAt E s prompt depth p log = (log', outcome) ->
    (∃ n, n <= depth
          ∧ map att_provider log'
            = (map att_provider log ++ take n (p :: repeat fallbackProvider n))%list)
    ∧ ∀ r, outcome = Returned r -> provider r = p ∨ provider r = fallbackProvider.
Proof.
  intros Hchain. induction depth as [| depth IH]; intros p log log' outcome H.
  - cbn [generateResponseAt] in H. injection H as <- <-. split; [| discriminate].
    exists 0. split; [lia |]. cbn [take]. rewrite app_nil_r. reflexivity.
  - cbn [generateResponseAt] in H.
    destruct (attempt E s (List.length log) p prompt) as [r | error] eqn:Hp.
    + injection H as <- <-. split.
      * exists 1. split; [lia |]. rewrite map_app. reflexivity.
      * intros r' Hr. injection Hr as <-. left.
        exact (attempt_provider E s prompt _ _ _ Hp).
    + rewrite Hchain in H. cbn [tryFallbackLoop] in H.
      destruct (generateResponseAt E s prompt depth fallbackProvider
                  (log ++ [mkAttempt p (Some error)])%list) as [log1 o1] eqn:Hfb.
      destruct (IH _ _ _ _ Hfb) as [(n & Hn & Hlog) Htag].
      destruct o1 as [r1 | e1 |].
      * injection H as <- <-. split.
        -- exists (S n). split; [lia |]. rewrite Hlog, map_app, <- app_assoc.
           cbn [map att_provider app take repeat]. rewrite take_repeat. reflexivity.
        -- intros r' Hr. injection Hr as <-. right.
           destruct (Htag r1 eq_refl) as [Ht | Ht]; exact Ht.
      * exfalso.
        refine (generateResponseAt_chain_never_throws E s prompt depth _ _ _ _ _ Hfb).
        rewrite Hchain. discriminate.
      * injection H as <- <-. split; [| discriminate].
        exists (S n). split; [lia |]. rewrite Hlog, map_app, <- app_assoc.
        cbn [map att_provider app take repeat]. rewrite take_repeat. reflexivity.
Qed.

(** Whatever the providers answer, a run of [generateResponse] with a
    fallback chain attempts the provider asked for and then only the first
    provider of the chain, again and again: no later provider of the chain
    is attempted, and a response comes from one of these two. *)
Theorem generateResponse_uses_head_of_chain
    (depth : nat) (useProvider : option AIProviderType)
    (fallbackProvider : AIProviderType) (rest : list AIProviderType)
    (log : list Attempt) (outcome : Outcome) :
  fallbackProviders s = fallbackProvider :: rest ->
  generateResponse E s prompt depth useProvider = (log, outcome) ->
  (∃ n, n <= depth
        ∧ map att_provider log
          = take n (default (currentProvider s) useProvider :: repeat fallbackProvider n))
  ∧ ∀ r, outcome = Returned r ->
         provider r = default (currentProvider s) useProvider
         ∨ provider r = fallbackProvider.
Proof.
  intros Hchain H. unfold generateResponse in H.
  exact (generateResponseAt_head_only fallbackProvider rest Hchain _ _ _ _ _ H).
Qed.

End FailoverRuns.

(** *** The document operations of the manager *)

Section DocumentOperations.
Import Manager ManagerOps.

Variable E : Env.
Variable s : State.
Variable t : nat.

(** For [generateResponse] the general [callProvider] is the one of the
    failover. *)
Lemma callProviderWith_generateResponse (p : AIProviderType) (prompt : string) :
  callProviderWith E s t p (CallGenerateResponse prompt) = callProvider E s t p prompt.
Proof.
  unfold callProviderWith, callProvider.
  destruct (providers s !! p) as [[c | a b] |]; reflexivity.
Qed.

(** [analyzeDocument], [chatWithDocuments] and [detectComplianceGaps] fail
    on every placeholder provider, with "Method ... not available", since
    these objects have [generateResponse] only; the fallback chain, if
    there is one, is not consulted. *)
Theorem document_operations_need_bedrock
    (completion modelName : string) (request : DocumentAnalysisRequest)
    (chat : ChatRequest) (requirements : list BedrockOps.Requirement)
    (documentContent framework : string) :
  providers s !! currentProvider s = Some (PlaceholderInstance completion modelName) ->
  analyzeDocument E s t request
  = Throw (Error ("Method analyzeDocument not available for provider "
                  ++ providerName (currentProvider s)))
  ∧ chatWithDocuments E s t chat
    = Throw (Error ("Method chatWithDocuments not available for provider "
                    ++ providerName (currentProvider s)))
  ∧ detectComplianceGaps E s t requirements documentContent framework
    = Throw (Error ("Method detectComplianceGaps not available for provider "
                    ++ providerName (currentProvider s))).
Proof.
  intros H. unfold analyzeDocument, chatWithDocuments, detectComplianceGaps, callCurrent,
    callProviderWith.
  rewrite H. repeat split.
Qed.

End DocumentOperations.

(** *** Choosing the best provider *)

Section Selection.
Import Manager ManagerOps.

Lemma find_first {A} (f : A -> bool) (l : list A) (x : A) :
  List.find f l = Some x ->
  f x = true ∧ ∃ l1 l2, l = (l1 ++ x :: l2)%list ∧ Forall (fun y => f y = false) l1.
Proof.
  induction l as [| y l IH]; [discriminate |]. cbn [List.find].
  destruct (f y) eqn:Hy.
  - intros [= ->]. split; [exact Hy |]. exists [], l. split; [reflexivity | constructor].
  - intros H. destruct (IH H) as (Hx & l1 & l2 & -> & Hl1). split; [exact Hx |].
    exists (y :: l1), l2. split; [reflexivity |]. constructor; assumption.
Qed.

Lemma priorityOrder_complete (p : AIProviderType) : In p priorityOrder.
Proof. destruct p; cbn; auto 10. Qed.

Lemma find_usable_none (E : Env) (s : State) (t : nat) :
  List.find (usable E s t) priorityOrder = None ->
  ∀ q inst, providers s !! q = Some inst -> testConnection E t inst = false.
Proof.
  intros Hfind q inst Hq.
  pose proof (find_none _ _ Hfind q (priorityOrder_complete q)) as Hnone.
  unfold usable, getProviderStatus in Hnone. rewrite map_lookup_imap, Hq in Hnone.
  cbn [mbind option_bind statusOf healthy] in Hnone.
  rewrite bool_decide_true in Hnone by eauto.
  rewrite andb_true_r in Hnone. exact Hnone.
Qed.

(** [switchToBestProvider] makes current a registered provider whose
    connection test passed, none of the providers before it in the order
    bedrock, claude, azure, openai, local having passed; providers,
    configurations and fallback chain stay as they were.  It throws only
    when no registered provider passes the test. *)
Theorem switchToBestProvider_picks (E : Env) (s : State) (t : nat) :
  match switchToBestProvider E s t with
  | Ok (s', p) =>
      currentProvider s' = p
      ∧ providers s' = providers s ∧ configs s' = configs s
      ∧ fallbackProviders s' = fallbackProviders s
      ∧ (∃ inst, providers s !! p = Some inst ∧ testConnection E t inst = true)
      ∧ ∃ before after, priorityOrder = (before ++ p :: after)%list
                        ∧ Forall (fun q => usable E s t q = false) before
  | Throw e =>
      e = Error "No healthy providers available"
      ∧ ∀ q inst, providers s !! q = Some inst -> testConnection E t inst = false
  end.
Proof.
  unfold switchToBestProvider.
  destruct (List.find (usable E s t) priorityOrder) as [p |] eqn:Hfind.
  - destruct (find_first _ _ _ Hfind) as (Hp & before & after & Horder & Hbefore).
    repeat (split; [reflexivity |]). split; [| eauto].
    unfold usable, getProviderStatus in Hp. rewrite map_lookup_imap in Hp.
    destruct (providers s !! p) as [inst |]; cbn [mbind option_bind] in Hp; [| discriminate].
    exists inst. split; [reflexivity |].
    cbn [statusOf healthy] in Hp. apply andb_prop in Hp as [Hp _]. exact Hp.
  - split; [reflexivity |]. exact (find_usable_none E s t Hfind).
Qed.

(** With a placeholder provider registered, [switchToBestProvider] always
    finds a provider: the connection test of a placeholder cannot fail. *)
Theorem switchToBestProvider_with_placeholder (E : Env) (s : State) (t : nat)
    (q : AIProviderType) (completion modelName : string) :
  providers s !! q = Some (PlaceholderInstance completion modelName) ->
  ∃ s' p, switchToBestProvider E s t = Ok (s', p).
Proof.
  intros Hq. unfold switchToBestProvider.
  destruct (List.find (usable E s t) priorityOrder) as [p |] eqn:Hfind; [eauto |].
  pose proof (find_usable_none E s t Hfind q _ Hq) as H. discriminate H.
Qed.

End Selection.

(** *** Registering and reconfiguring providers *)

Section Registration.
Import Manager ManagerOps.

Lemma modelOr_nonEmpty (config : option (gmap string JsValue)) (fallback : string) :
  fallback ≠ "" -> isTruthy (JStr (modelOr config fallback)) = true.
Proof.
  intros Hf. unfold modelOr, BedrockOps.orElse. cbn [isTruthy].
  destruct (config ≫= _) as [m |].
  - destruct (String.eqb m "") eqn:Hm; [| rewrite Hm; reflexivity].
    apply String.eqb_neq in Hf. rewrite Hf. reflexivity.
  - apply String.eqb_neq in Hf. rewrite Hf. reflexivity.
Qed.

(** [setProvider] for a provider other than Bedrock cannot fail.  It
    makes that provider current, keeps the configuration given and leaves
    the fallback chain alone; from then on [generateResponse] answers at
    the first attempt, with a fixed text and no token usage, tagged with
    that provider. *)
Theorem setProvider_placeholder (awsRegion : option string) (s : State)
    (p : AIProviderType) (config : gmap string JsValue)
    (E : Env) (prompt : string) (depth : nat) :
  p ≠ bedrock ->
  ∃ s' r,
    setProvider awsRegion s p config = (s', None)
    ∧ getCurrentProvider s' = p
    ∧ getProviderConfig s' None = Some config
    ∧ fallbackProviders s' = fallbackProviders s
    ∧ generateResponse E s' prompt (S depth) None = ([mkAttempt p None], Returned r)
    ∧ provider r = p
    ∧ isTruthy (content r) = true
    ∧ usage r = JUndefined.
Proof.
  intros Hp.
  destruct p; [contradiction | | | |];
    (eexists; eexists; split; [reflexivity |];
     split; [reflexivity |];
     split; [unfold getProviderConfig; cbn [currentProvider withCurrent configs default];
             rewrite lookup_insert_eq; reflexivity |];
     split; [reflexivity |];
     split;
     [ unfold generateResponse; cbn [generateResponseAt List.length default currentProvider
         withCurrent];
       unfold attempt, callProvider; cbn [providers withCurrent];
       rewrite lookup_insert_eq; cbn [invoke mbind result_bind];
       rewrite standardizeResponse_object; reflexivity
     | split; [reflexivity |]; split; reflexivity ]).
Qed.

(** [setProvider] for Bedrock registers the provider on the configuration
    given laid over the defaults, and records that merged object, when
    [initialize] accepts it.  When [initialize] rejects it, the provider
    registered before and the current provider stay, but the rejected
    configuration is already recorded: [getProviderConfig] then shows a
    configuration no provider runs on. *)
Theorem setProvider_bedrock (awsRegion : option string) (s : State)
    (config : gmap string JsValue) :
  let merged := spread (bedrockDefaults awsRegion) config in
  let after := setProvider awsRegion s bedrock config in
  match BedrockOps.initialize (asBedrockConfig merged) with
  | Ok _ =>
      snd after = None
      ∧ getCurrentProvider (fst after) = bedrock
      ∧ providers (fst after) !! bedrock = Some (BedrockInstance (asBedrockConfig merged))
      ∧ getProviderConfig (fst after) (Some bedrock) = Some merged
  | Throw e =>
      snd after = Some e
      ∧ getCurrentProvider (fst after) = getCurrentProvider s
      ∧ providers (fst after) = providers s
      ∧ getProviderConfig (fst after) (Some bedrock) = Some config
  end.
Proof.
  cbn zeta. unfold setProvider, setup, setupBedrockProvider. cbn [default].
  destruct (BedrockOps.initialize _) as [[] | e];
    cbn [fst snd getCurrentProvider getProviderConfig withCurrent currentProvider providers
         configs default];
    repeat split; try reflexivity; apply lookup_insert_eq.
Qed.

Lemma setProvider_chain (awsRegion : option string) (s : State)
    (p : AIProviderType) (config : gmap string JsValue) :
  fallbackProviders (fst (setProvider awsRegion s p config)) = fallbackProviders s.
Proof.
  unfold setProvider, setup, setupBedrockProvider, setupPlaceholder.
  destruct p; cbn [default]; try reflexivity.
  destruct (BedrockOps.initialize _) as [[] | e]; reflexivity.
Qed.

Lemma setProvider_keeps_registered (awsRegion : option string) (s : State)
    (p : AIProviderType) (config : gmap string JsValue) (q : AIProviderType) :
  is_Some (providers s !! q) ->
  is_Some (providers (fst (setProvider awsRegion s p config)) !! q).
Proof.
  intros Hq. unfold setProvider, setup, setupBedrockProvider, setupPlaceholder.
  destruct p; cbn [default];
    try (cbn [fst withCurrent providers]; rewrite lookup_insert; case_decide;
         [eauto | exact Hq]).
  destruct (BedrockOps.initialize _) as [[] | e]; cbn [fst withCurrent providers];
    [| exact Hq].
  rewrite lookup_insert; case_decide; [eauto | exact Hq].
Qed.

(** Every provider of the fallback chain is registered: [setFallbackProviders]
    sees to it, dropping the others, and [setProvider], whether it succeeds
    or not, [updateProviderConfig] and [switchToBestProvider] keep it so. *)
Theorem chainRegistered_kept (awsRegion : option string) (s : State) :
  (∀ chain, chainRegistered (setFallbackProviders s chain))
  ∧ (chainRegistered s ->
     (∀ p config, chainRegistered (fst (setProvider awsRegion s p config)))
     ∧ (∀ p updates, chainRegistered (fst (updateProviderConfig awsRegion s p updates)))
     ∧ (∀ E t s' p, switchToBestProvider E s t = Ok (s', p) -> chainRegistered s')).
Proof.
  split.
  - intros chain. unfold chainRegistered, setFallbackProviders.
    cbn [fallbackProviders providers]. apply Forall_forall. intros p Hin.
    apply list_elem_of_In, filter_In in Hin as [_ Hp].
    apply bool_decide_eq_true in Hp. exact Hp.
  - intros Hs.
    assert (Hset : ∀ p config, chainRegistered (fst (setProvider awsRegion s p config))).
    { intros p config. unfold chainRegistered in *. rewrite setProvider_chain.
      eapply Forall_impl; [exact Hs |]. intros q Hq.
      apply setProvider_keeps_registered. exact Hq. }
    split; [exact Hset |]. split.
    + intros p updates. unfold updateProviderConfig.
      destruct (configs s !! p); [apply Hset | exact Hs].
    + intros E t s' p H. unfold switchToBestProvider in H.
      destruct (List.find _ _); [| discriminate H]. injection H as <- _. exact Hs.
Qed.

End Registration.

Section Reconfiguration.
Import Manager ManagerOps.

(** [updateProviderConfig] for a provider other than Bedrock cannot fail
    once the provider has a configuration: the properties named in the
    update take the values given, the others keep theirs, and the provider
    updated becomes the current one. *)
Theorem updateProviderConfig_merges (awsRegion : option string) (s : State)
    (p : AIProviderType) (current updates : gmap string JsValue) :
  p ≠ bedrock ->
  configs s !! p = Some current ->
  ∃ s' merged,
    updateProviderConfig awsRegion s p updates = (s', None)
    ∧ getCurrentProvider s' = p
    ∧ getProviderConfig s' (Some p) = Some merged
    ∧ ∀ k, merged !! k = match updates !! k with
                         | Some v => Some v
                         | None => current !! k
                         end.
Proof.
  intros Hp Hc. unfold updateProviderConfig. rewrite Hc.
  exists (fst (setProvider awsRegion s p (spread current updates))),
         (spread current updates).
  destruct p; [contradiction | | | |];
    (split; [reflexivity |]; split; [reflexivity |]; split;
     [ unfold getProviderConfig; cbn [default setProvider setup setupPlaceholder fst
         withCurrent configs]; apply lookup_insert_eq
     | intros k; unfold spread; rewrite lookup_union;
       destruct (updates !! k), (current !! k); reflexivity ]).
Qed.

(** The status shows every property of a configuration other than [apiKey]
    and [secretAccessKey] as it is, an access key identifier or a session
    token included; under these two names it shows the masked constant or
    [undefined], whether the configuration has them or not. *)
Theorem getProviderStatus_shows_the_rest (E : Env) (s : State) (t : nat)
    (p : AIProviderType) (st : ProviderStatus) :
  getProviderStatus E s t !! p = Some st ->
  (∀ k, k ≠ "apiKey" -> k ≠ "secretAccessKey" ->
        st_config st !! k = default ∅ (configs s !! p) !! k)
  ∧ (∀ k, k = "apiKey" ∨ k = "secretAccessKey" ->
          st_config st !! k = Some masked ∨ st_config st !! k = Some JUndefined).
Proof.
  unfold getProviderStatus. rewrite map_lookup_imap.
  destruct (providers s !! p) as [inst |]; cbn [mbind option_bind]; [| discriminate].
  intros [= <-]. cbn [statusOf st_config]. unfold maskConfig. split.
  - intros k Hk1 Hk2. rewrite !lookup_insert_ne by congruence. reflexivity.
  - intros k [-> | ->].
    + rewrite lookup_insert_ne by discriminate. rewrite lookup_insert_eq.
      destruct (isTruthy _); auto.
    + rewrite lookup_insert_eq. destruct (isTruthy _); auto.
Qed.

End Reconfiguration.

(** *** Cost and usage: bounds *)

Section CostBounds.
Import Sql.
Local Open Scope Z_scope.

Lemma roundHundredth_exact (k : Z) : roundHundredth (k * 100) = k.
Proof.
  unfold roundHundredth. destruct (Z.lt_trichotomy k 0) as [Hk | [-> | Hk]].
  - rewrite Z.sgn_neg, Z.abs_neq by lia.
    replace (- (k * 100) + 50) with ((- k) * 100 + 50) by lia.
    rewrite Z.div_add_l by lia. change (50 / 100) with 0. lia.
  - reflexivity.
  - rewrite Z.sgn_pos, Z.abs_eq by lia.
    rewrite Z.div_add_l by lia. change (50 / 100) with 0. lia.
Qed.

(** For a Claude 3 Sonnet model on Bedrock the cost is exactly 3
    millionths of a dollar per prompt token and 15 per completion token,
    as long as this stays below the 10,000 dollars a DECIMAL(10,6) holds;
    from there on the function raises a numeric overflow.  It never raises
    case_not_found for such a model. *)
Theorem calculate_ai_usage_cost_sonnet (model_name : string) (p c : Z) :
  like model_name "claude-3-sonnet" = true ->
  0 <= p -> 0 <= c ->
  calculate_ai_usage_cost "bedrock" model_name p c
  = if 3 * p + 15 * c <? 10000000000 then Done (3 * p + 15 * c)
    else Raise NumericFieldOverflow.
Proof.
  intros Hlike Hp Hc. unfold calculate_ai_usage_cost.
  cbn [String.eqb Ascii.eqb Bool.eqb andb]. rewrite Hlike. unfold toDecimal.
  replace (p * 300 + c * 1500) with ((3 * p + 15 * c) * 100) by lia.
  rewrite roundHundredth_exact, Z.abs_eq by lia.
  destruct (3 * p + 15 * c <? 10000000000); reflexivity.
Qed.

(** A provider with a price has a name of at most 50 characters: the
    column takes it as it is. *)
Lemma priced_provider_fits (provider_name model_name : string) (p c cost : Z) :
  calculate_ai_usage_cost provider_name model_name p c = Done cost ->
  varchar 50 provider_name = Done provider_name.
Proof.
  unfold calculate_ai_usage_cost. intros H.
  destruct (String.eqb provider_name "bedrock") eqn:Hbedrock.
  - apply String.eqb_eq in Hbedrock. subst provider_name. reflexivity.
  - destruct (String.eqb provider_name "openai") eqn:Hopenai; [| discriminate H].
    apply String.eqb_eq in Hopenai. subst provider_name. reflexivity.
Qed.


(** When every argument is of its type (the identifiers UUIDs, the counts
    and the time INTEGER values), a cost is computed and the model name
    and the operation fit their columns, but the sum of the two counts is
    no INTEGER value, the addition in the INSERT raises "integer out of
    range" and no row is written. *)
Theorem track_ai_usage_total_overflow (fresh : string) (table : list UsageRow)
    (u : string) (pr : option string) (provider_name model_name op : string)
    (p c : Z) (t : option Z) (ok : bool) (msg : option string)
    (user : string) (project : option string) (time : option Z) (cost : Z) :
  uuid_in u = Done user -> nullable uuid_in pr = Done project ->
  int4 p = Done p -> int4 c = Done c -> nullable int4 t = Done time ->
  calculate_ai_usage_cost provider_name model_name p c = Done cost ->
  fits 100 model_name = true -> fits 50 op = true ->
  2147483647 < p + c ->
  track_ai_usage fresh table u pr provider_name model_name op p c t ok msg
  = Raise IntegerOutOfRange.
Proof.
  intros Hu Hpr Hp Hc Ht Hcost Hmodel Hop Hsum. unfold track_ai_usage.
  rewrite Hu; cbn [mbind sql_bind]. rewrite Hpr; cbn [mbind sql_bind].
  rewrite Hp; cbn [mbind sql_bind]. rewrite Hc; cbn [mbind sql_bind].
  rewrite Ht; cbn [mbind sql_bind]. rewrite Hcost; cbn [mbind sql_bind].
  rewrite (priced_provider_fits _ _ _ _ _ Hcost); cbn [mbind sql_bind].
  unfold varchar. rewrite Hmodel, Hop; cbn [mbind sql_bind].
  unfold int4 at 1. replace (p + c <=? 2147483647) with false by (symmetry; lia).
  rewrite andb_false_r. reflexivity.
Qed.


End CostBounds.

(** *** The configuration object over the life of a provider *)

Section ConfigLife.
Import BedrockObject BedrockObjectOps.

Lemma append_length (a b : string) :
  String.length (a ++ b) = (String.length a + String.length b)%nat.
Proof. induction a as [| x a IH]; [reflexivity |]. simpl. rewrite IH. reflexivity. Qed.

Lemma append_cancel_r (a b s : string) : a ++ s = b ++ s -> a = b.
Proof.
  revert b. induction a as [| x a IH]; intros [| y b] H.
  - reflexivity.
  - apply (f_equal String.length) in H. rewrite !append_length in H. simpl in H. lia.
  - apply (f_equal String.length) in H. rewrite !append_length in H. simpl in H. lia.
  - simpl in H. injection H as -> H. f_equal. apply IH. exact H.
Qed.

Lemma append_cancel_l (s a b : string) : s ++ a = s ++ b -> a = b.
Proof.
  induction s as [| x s IH]; intros H; [exact H |].
  simpl in H. injection H as H. apply IH. exact H.
Qed.

Lemma endpointFor_inj (r1 r2 : string) : endpointFor r1 = endpointFor r2 -> r1 = r2.
Proof.
  unfold endpointFor. intros H. apply append_cancel_l in H.
  apply append_cancel_r in H. exact H.
Qed.

(** [updateConfig] puts a new object in the place of the configuration and
    builds the endpoint again from its region.  The object that was the
    configuration before is left as it was, as is every other object and
    array: whoever holds it (the caller of the constructor, the manager's
    table of configurations) does not see the update.  No check of the
    model is made. *)
Theorem updateConfig_replaces_object
    (h h' : Heap) (p p' : BedrockProvider) (u : ConfigUpdate) :
  updateConfig h p u = Some (h', p') ->
  endpointInStep h' p'
  ∧ config p' ≠ config p
  ∧ (∃ o, objects h !! config p = Some o
          ∧ objects h' !! config p' = Some (applyUpdate u o))
  ∧ arrays h' = arrays h
  ∧ ∀ l, is_Some (objects h !! l) -> objects h' !! l = objects h !! l.
Proof.
  unfold updateConfig. intros H.
  destruct (objects h !! config p) as [o |] eqn:Ho; [| discriminate H].
  cbn [mbind option_bind] in H. injection H as <- <-.
  cbn [config endpoint objects arrays].
  assert (Hfresh : ∀ l, is_Some (objects h !! l) -> freshLoc h ≠ l).
  { intros l [x Hl] Heq. pose proof (freshLoc_objects h) as Hnone.
    rewrite Heq, Hl in Hnone. discriminate Hnone. }
  split; [| split; [| split; [| split]]].
  - exists (applyUpdate u o). cbn [config endpoint objects].
    rewrite lookup_insert_eq. split; reflexivity.
  - apply Hfresh. rewrite Ho. eauto.
  - exists o. split; [reflexivity | apply lookup_insert_eq].
  - reflexivity.
  - intros l Hl. apply lookup_insert_ne. apply Hfresh. exact Hl.
Qed.

(** The constructor keeps the very object it is given.  The endpoint is
    right when the provider is built, but a later write to the region of
    that object by its owner changes the region the provider reads and not
    its endpoint: the two are out of step from then on. *)
Theorem construct_keeps_reference (h : Heap) (l : loc) (p : BedrockProvider)
    (o : ConfigObject) (region : string) :
  construct h l = Some p ->
  objects h !! l = Some o ->
  region ≠ o_region o ->
  config p = l
  ∧ endpointInStep h p
  ∧ (o_region <$> objects (mutate l h (SetRegion region)) !! config p) = Some region
  ∧ ¬ endpointInStep (mutate l h (SetRegion region)) p.
Proof.
  unfold construct. intros Hc Ho Hne. rewrite Ho in Hc. cbn [mbind option_bind] in Hc.
  injection Hc as <-. cbn [config endpoint].
  assert (Hafter : objects (mutate l h (SetRegion region)) !! l
                   = Some (updateObject (SetRegion region) o)).
  { unfold mutate. cbn [ownProperty objects]. rewrite lookup_alter_eq, Ho. reflexivity. }
  split; [reflexivity |]. split; [exists o; auto |]. split.
  - rewrite Hafter. reflexivity.
  - intros (o' & Ho' & Hend). cbn [config endpoint] in Ho', Hend.
    rewrite Hafter in Ho'. injection Ho' as <-. cbn [updateObject o_region] in Hend.
    apply endpointFor_inj in Hend. congruence.
Qed.

End ConfigLife.

(** *** The theorems above on concrete inputs *)

Lemma standardizeResponse_shape_witness :
  ∃ r, Manager.standardizeResponse isoTime onlyCompletion Manager.openai = Ok r
       ∧ isTruthy (Manager.model r) = true
       ∧ (isTruthy (Manager.content r) = true ∨ Manager.content r = JStr "")
       ∧ Manager.provider r = Manager.openai
       ∧ Manager.originalResponse r = onlyCompletion
       ∧ getProp onlyCompletion "usage" = Ok (Manager.usage r)
       ∧ getProp onlyCompletion "stop_reason" = Ok (Manager.stopReason r).
Proof.
  assert (H : ∃ r, Manager.standardizeResponse isoTime onlyCompletion Manager.openai = Ok r)
    by (eexists; vm_compute; reflexivity).
  destruct H as [r H]. exists r. split; [exact H |].
  exact (standardizeResponse_shape isoTime onlyCompletion Manager.openai r H).
Defined.

Lemma normalize_usage_witness :
  ∃ r, Spec.normalize (withModel "amazon.titan-text-express-v1") isoTime titanWithUsage = Ok r
       ∧ isTruthy (Spec.count titanWithUsage "usage") = true
       ∧ Manager.usage r = JUndefined.
Proof.
  assert (H : ∃ r, Spec.normalize (withModel "amazon.titan-text-express-v1") isoTime
                     titanWithUsage = Ok r)
    by (eexists; vm_compute; reflexivity).
  destruct H as [r H]. exists r. split; [exact H |]. split; [reflexivity |].
  exact (normalize_usage (withModel "amazon.titan-text-express-v1") isoTime
           titanWithUsage r H).
Defined.

Lemma generateResponse_throws_only_without_chain_witness :
  Manager.generateResponse downEnv baseState "Hello" 1 None
  = ([Manager.mkAttempt Manager.bedrock (Some bedrockDown)], Manager.Thrown bedrockDown)
  ∧ Manager.fallbackProviders baseState = []
  ∧ [Manager.mkAttempt Manager.bedrock (Some bedrockDown)]
    = [Manager.mkAttempt (default (Manager.currentProvider baseState) None)
         (Some bedrockDown)]
  ∧ Manager.attempt downEnv baseState 0 (default (Manager.currentProvider baseState) None)
      "Hello" = Throw bedrockDown.
Proof.
  assert (H : Manager.generateResponse downEnv baseState "Hello" 1 None
              = ([Manager.mkAttempt Manager.bedrock (Some bedrockDown)],
                 Manager.Thrown bedrockDown)) by (vm_compute; reflexivity).
  split; [exact H |].
  exact (generateResponse_throws_only_without_chain downEnv baseState "Hello" 1 None _ _ H).
Defined.

Lemma generateResponse_uses_head_of_chain_witness :
  Manager.fallbackProviders chainState = [Manager.bedrock; Manager.openai]
  ∧ ∃ n, n <= 6
         ∧ map Manager.att_provider
             (fst (Manager.generateResponse downEnv chainState "Hello" 6 (Some Manager.local)))
           = take n (Manager.local :: repeat Manager.bedrock n).
Proof.
  split; [exact chainState_chain |].
  exact (proj1 (generateResponse_uses_head_of_chain downEnv chainState "Hello" 6
                  (Some Manager.local) Manager.bedrock [Manager.openai] _ _
                  chainState_chain (surjective_pairing _))).
Defined.

Lemma openaiState_current :
  Manager.providers openaiState !! Manager.currentProvider openaiState
  = Some (Manager.PlaceholderInstance "OpenAI response placeholder" "gpt-4o").
Proof. vm_compute. reflexivity. Qed.

Lemma document_operations_need_bedrock_witness :
  Manager.providers openaiState !! Manager.currentProvider openaiState
  = Some (Manager.PlaceholderInstance "OpenAI response placeholder" "gpt-4o")
  ∧ ManagerOps.analyzeDocument downEnv openaiState 0 gapsRequest
    = Throw (Error "Method analyzeDocument not available for provider openai")
  ∧ ManagerOps.chatWithDocuments downEnv openaiState 0 chatRequest
    = Throw (Error "Method chatWithDocuments not available for provider openai")
  ∧ ManagerOps.detectComplianceGaps downEnv openaiState 0 [] "Access is reviewed yearly."
      "SOC 2"
    = Throw (Error "Method detectComplianceGaps not available for provider openai").
Proof.
  split; [exact openaiState_current |].
  exact (document_operations_need_bedrock downEnv openaiState 0 _ _ gapsRequest chatRequest
           [] "Access is reviewed yearly." "SOC 2" openaiState_current).
Defined.

Lemma baseState_openai :
  Manager.providers baseState !! Manager.openai
  = Some (Manager.PlaceholderInstance "OpenAI response placeholder" "gpt-4").
Proof. vm_compute. reflexivity. Qed.

Lemma switchToBestProvider_with_placeholder_witness :
  Manager.providers baseState !! Manager.openai
  = Some (Manager.PlaceholderInstance "OpenAI response placeholder" "gpt-4")
  ∧ ∃ s' p, ManagerOps.switchToBestProvider downEnv baseState 0 = Ok (s', p).
Proof.
  split; [exact baseState_openai |].
  exact (switchToBestProvider_with_placeholder downEnv baseState 0 Manager.openai _ _
           baseState_openai).
Defined.

Lemma setProvider_placeholder_witness :
  Manager.openai ≠ Manager.bedrock
  ∧ ∃ s' r,
      ManagerOps.setProvider None (ManagerOps.initialState None) Manager.openai openaiObject
      = (s', None)
      ∧ ManagerOps.getCurrentProvider s' = Manager.openai
      ∧ ManagerOps.getProviderConfig s' None = Some openaiObject
      ∧ Manager.fallbackProviders s'
        = Manager.fallbackProviders (ManagerOps.initialState None)
      ∧ Manager.generateResponse downEnv s' "Hello" 1 None
        = ([Manager.mkAttempt Manager.openai None], Manager.Returned r)
      ∧ Manager.provider r = Manager.openai
      ∧ isTruthy (Manager.content r) = true
      ∧ Manager.usage r = JUndefined.
Proof.
  assert (H : Manager.openai ≠ Manager.bedrock) by discriminate.
  split; [exact H |].
  exact (setProvider_placeholder None (ManagerOps.initialState None) Manager.openai
           openaiObject downEnv "Hello" 0 H).
Defined.

Lemma openaiState_config : Manager.configs openaiState !! Manager.openai = Some openaiObject.
Proof. vm_compute. reflexivity. Qed.

Lemma updateProviderConfig_merges_witness :
  Manager.openai ≠ Manager.bedrock
  ∧ Manager.configs openaiState !! Manager.openai = Some openaiObject
  ∧ ∃ s' merged,
      ManagerOps.updateProviderConfig None openaiState Manager.openai
        {[ "modelId" := JStr "gpt-4-turbo" ]} = (s', None)
      ∧ ManagerOps.getCurrentProvider s' = Manager.openai
      ∧ ManagerOps.getProviderConfig s' (Some Manager.openai) = Some merged
      ∧ ∀ k, merged !! k
             = match ({[ "modelId" := JStr "gpt-4-turbo" ]} : gmap string JsValue) !! k with
               | Some v => Some v
               | None => openaiObject !! k
               end.
Proof.
  assert (H : Manager.openai ≠ Manager.bedrock) by discriminate.
  split; [exact H |]. split; [exact openaiState_config |].
  exact (updateProviderConfig_merges None openaiState Manager.openai openaiObject
           {[ "modelId" := JStr "gpt-4-turbo" ]} H openaiState_config).
Defined.

Lemma keyedStatus_lookup :
  Manager.getProviderStatus downEnv (keyedState "first-secret") 0 !! Manager.bedrock
  = Some keyedStatus.
Proof.
  unfold Manager.getProviderStatus. rewrite map_lookup_imap.
  unfold keyedState. cbn [Manager.providers]. rewrite lookup_singleton_eq. reflexivity.
Qed.

Lemma getProviderStatus_shows_the_rest_witness :
  Manager.getProviderStatus downEnv (keyedState "first-secret") 0 !! Manager.bedrock
  = Some keyedStatus
  ∧ Manager.st_config keyedStatus !! "accessKeyId" = Some (JStr "AKIAEXAMPLE")
  ∧ Manager.st_config keyedStatus !! "secretAccessKey" = Some Manager.masked.
Proof.
  split; [exact keyedStatus_lookup |].
  destruct (getProviderStatus_shows_the_rest downEnv (keyedState "first-secret") 0
              Manager.bedrock keyedStatus keyedStatus_lookup) as [Hrest _].
  split; [| vm_compute; reflexivity].
  rewrite (Hrest "accessKeyId") by discriminate. vm_compute. reflexivity.
Defined.

Lemma calculate_ai_usage_cost_sonnet_witness :
  Sql.like "anthropic.claude-3-sonnet-20240229-v1:0" "claude-3-sonnet" = true
  ∧ Sql.calculate_ai_usage_cost "bedrock" "anthropic.claude-3-sonnet-20240229-v1:0" 1200 300
    = Sql.Done 8100%Z.
Proof.
  assert (H : Sql.like "anthropic.claude-3-sonnet-20240229-v1:0" "claude-3-sonnet" = true)
    by reflexivity.
  split; [exact H |].
  exact (calculate_ai_usage_cost_sonnet "anthropic.claude-3-sonnet-20240229-v1:0" 1200 300
           H ltac:(lia) ltac:(lia)).
Defined.

Lemma track_ai_usage_total_overflow_witness :
  Sql.uuid_in analystId = Sql.Done analystId
  ∧ Sql.calculate_ai_usage_cost "openai" "gpt-3.5-turbo" 1073741824%Z 1073741824%Z
    = Sql.Done 3221225472%Z
  ∧ Sql.fits 100 "gpt-3.5-turbo" = true
  ∧ Sql.fits 50 "chat" = true
  ∧ Sql.track_ai_usage usageId [] analystId None "openai" "gpt-3.5-turbo" "chat"
      1073741824%Z 1073741824%Z (Some 950%Z) true None
    = Sql.Raise Sql.IntegerOutOfRange.
Proof.
  assert (Hu : Sql.uuid_in analystId = Sql.Done analystId) by reflexivity.
  assert (H : Sql.calculate_ai_usage_cost "openai" "gpt-3.5-turbo" 1073741824%Z 1073741824%Z
              = Sql.Done 3221225472%Z) by reflexivity.
  assert (Hmodel : Sql.fits 100 "gpt-3.5-turbo" = true) by reflexivity.
  assert (Hop : Sql.fits 50 "chat" = true) by reflexivity.
  split; [exact Hu |]. split; [exact H |]. split; [exact Hmodel |]. split; [exact Hop |].
  exact (track_ai_usage_total_overflow usageId [] analystId None "openai" "gpt-3.5-turbo"
           "chat" 1073741824%Z 1073741824%Z (Some 950%Z) true None
           analystId None (Some 950%Z) 3221225472%Z
           Hu eq_refl eq_refl eq_refl eq_refl H Hmodel Hop ltac:(lia)).
Defined.


Lemma updateConfig_stop :
  BedrockObjectOps.updateConfig stopHeap stopProvider otherModel
  = Some (stopUpdated, stopProviderUpdated).
Proof. vm_compute. reflexivity. Qed.

Lemma updateConfig_replaces_object_witness :
  BedrockObjectOps.updateConfig stopHeap stopProvider otherModel
  = Some (stopUpdated, stopProviderUpdated)
  ∧ BedrockObjectOps.endpointInStep stopUpdated stopProviderUpdated
  ∧ BedrockObject.getModelFamily stopUpdated stopProviderUpdated = Some Bedrock.FamGeneric
  ∧ BedrockObject.getModelFamily stopUpdated stopProvider = Some Bedrock.FamClaude.
Proof.
  split; [exact updateConfig_stop |].
  split; [| split; vm_compute; reflexivity].
  exact (proj1 (updateConfig_replaces_object stopHeap stopUpdated stopProvider
                  stopProviderUpdated otherModel updateConfig_stop)).
Defined.

Lemma construct_keeps_reference_witness :
  BedrockObjectOps.construct stopHeap 0%nat = Some stopProvider
  ∧ BedrockObject.objects stopHeap !! 0%nat = Some stopObject
  ∧ "eu-west-1" ≠ BedrockObject.o_region stopObject
  ∧ ¬ BedrockObjectOps.endpointInStep
        (BedrockObject.mutate 0%nat stopHeap (BedrockObject.SetRegion "eu-west-1"))
        stopProvider.
Proof.
  assert (Hc : BedrockObjectOps.construct stopHeap 0%nat = Some stopProvider)
    by (vm_compute; reflexivity).
  assert (Ho : BedrockObject.objects stopHeap !! 0%nat = Some stopObject)
    by (vm_compute; reflexivity).
  assert (Hne : "eu-west-1" ≠ BedrockObject.o_region stopObject) by discriminate.
  split; [exact Hc |]. split; [exact Ho |]. split; [exact Hne |].
  exact (proj2 (proj2 (proj2 (construct_keeps_reference stopHeap 0%nat stopProvider
                                stopObject "eu-west-1" Hc Ho Hne)))).
Defined.

(** *** Across the components *)

Section Across.
Import Bedrock BedrockOps Manager ManagerOps.


(** While the Bedrock endpoint cannot be reached, [switchToBestProvider]
    does not choose the Bedrock provider. *)
Theorem switchToBestProvider_skips_unreachable (E : Env) (s s' : State) (t : nat)
    (config : BedrockConfig) (p : AIProviderType) :
  providers s !! bedrock = Some (BedrockInstance config) ->
  (∀ url headers request, ∃ e, network E t url headers request = Throw e) ->
  switchToBestProvider E s t = Ok (s', p) ->
  p ≠ bedrock.
Proof.
  intros Hb Hdown H Heq. subst p. unfold switchToBestProvider in H.
  destruct (List.find (usable E s t) priorityOrder) as [q |] eqn:Hfind; [| discriminate H].
  injection H as _ ->. apply find_first in Hfind as [Hu _].
  unfold usable, getProviderStatus in Hu. rewrite map_lookup_imap, Hb in Hu.
  cbn [mbind option_bind statusOf healthy testConnection] in Hu.
  unfold BedrockCall.testConnection, BedrockCall.generateResponse, BedrockCall.callBedrock
    in Hu.
  destruct (Hdown (endpointOf config ++ "/model/"
                   ++ req_modelId (buildRequest config "Test connection") ++ "/invoke")
              (BedrockCall.buildAuthHeaders config (buildRequest config "Test connection"))
              (buildRequest config "Test connection")) as [e He].
  rewrite He in Hu. discriminate Hu.
Qed.

End Across.

Section Rounding.
Import Sql.
Local Open Scope Z_scope.

Lemma toDecimal_bounds (v m : Z) :
  0 <= v -> toDecimal v = Done m ->
  0 <= m < 10000000000 ∧ -50 <= v - 100 * m < 50.
Proof.
  unfold toDecimal. intros Hv H.
  assert (Hround : roundHundredth v = (v + 50) / 100).
  { unfold roundHundredth. destruct (Z.eq_dec v 0) as [-> | Hnz]; [reflexivity |].
    rewrite Z.sgn_pos, Z.abs_eq by lia. lia. }
  rewrite Hround in H. clear Hround.
  pose proof (Z.div_mod (v + 50) 100 ltac:(lia)) as Hdm.
  pose proof (Z.mod_pos_bound (v + 50) 100 ltac:(lia)) as Hmod.
  assert (Hq : 0 <= (v + 50) / 100) by (apply Z.div_pos; lia).
  destruct (Z.abs ((v + 50) / 100) <? 10000000000) eqn:Hlt; [| discriminate H].
  injection H as <-. apply Z.ltb_lt in Hlt. rewrite Z.abs_eq in Hlt by exact Hq. lia.
Qed.

(** A cost [calculate_ai_usage_cost] returns for token counts that are not
    negative is itself not negative, is below 10,000 dollars, and lies
    within half a millionth of a dollar of the product of the tokens with
    one of the five price pairs of the function. *)
Theorem calculate_ai_usage_cost_bounds (provider_name model_name : string) (p c cost : Z) :
  0 <= p -> 0 <= c ->
  calculate_ai_usage_cost provider_name model_name p c = Done cost ->
  0 <= cost < 10000000000
  ∧ ∃ a b, In (a, b) Tables.prices ∧ -50 <= (p * a + c * b) - 100 * cost < 50.
Proof.
  intros Hp Hc. unfold calculate_ai_usage_cost, Tables.prices.
  destruct (String.eqb provider_name "bedrock").
  - destruct (like model_name "claude-3-sonnet");
      [| destruct (like model_name "claude-3-haiku");
         [| destruct (like model_name "titan"); [| discriminate]]];
      cbn [mbind sql_bind]; intros H;
      (destruct (toDecimal _) as [m |] eqn:Hm; [| discriminate H]);
      injection H as <-; apply toDecimal_bounds in Hm; try nia;
      (split; [tauto |]); eexists; eexists; (split; [| apply Hm]); cbn; auto 10.
  - destruct (String.eqb provider_name "openai"); [| discriminate].
    destruct (String.eqb model_name "gpt-4");
      [| destruct (String.eqb model_name "gpt-3.5-turbo"); [| discriminate]];
      cbn [mbind sql_bind]; intros H;
      (destruct (toDecimal _) as [m |] eqn:Hm; [| discriminate H]);
      injection H as <-; apply toDecimal_bounds in Hm; try nia;
      (split; [tauto |]); eexists; eexists; (split; [| apply Hm]); cbn; auto 10.
Qed.

End Rounding.


Lemma downEnv_unreachable (t : nat) (url : string) (headers : list (string * string))
    (request : Bedrock.BedrockRequest) :
  ∃ e, Manager.network downEnv t url headers request = Throw e.
Proof. eexists. reflexivity. Qed.

Lemma baseState_bedrock :
  Manager.providers baseState !! Manager.bedrock
  = Some (Manager.BedrockInstance sonnetConfig).
Proof. vm_compute. reflexivity. Qed.

Lemma switchToBestProvider_skips_unreachable_witness :
  ManagerOps.switchToBestProvider downEnv baseState 0
  = Ok (ManagerOps.withCurrent baseState Manager.openai, Manager.openai)
  ∧ Manager.openai ≠ Manager.bedrock.
Proof.
  assert (H : ManagerOps.switchToBestProvider downEnv baseState 0
              = Ok (ManagerOps.withCurrent baseState Manager.openai, Manager.openai))
    by (vm_compute; reflexivity).
  split; [exact H |].
  exact (switchToBestProvider_skips_unreachable downEnv baseState _ 0 sonnetConfig
           Manager.openai baseState_bedrock (downEnv_unreachable 0) H).
Defined.

Lemma calculate_ai_usage_cost_bounds_witness :
  Sql.calculate_ai_usage_cost "bedrock" "anthropic.claude-3-haiku-20240307-v1:0" 3 1
  = Sql.Done 2%Z
  ∧ (0 <= 2 < 10000000000)%Z
  ∧ ∃ a b, In (a, b) Tables.prices ∧ (-50 <= (3 * a + 1 * b) - 100 * 2 < 50)%Z.
Proof.
  assert (H : Sql.calculate_ai_usage_cost "bedrock"
                "anthropic.claude-3-haiku-20240307-v1:0" 3 1 = Sql.Done 2%Z)
    by reflexivity.
  split; [exact H |].
  exact (calculate_ai_usage_cost_bounds "bedrock" "anthropic.claude-3-haiku-20240307-v1:0"
           3 1 2 ltac:(lia) ltac:(lia) H).
Defined.
